(** * AreaMeasurementPanel: the view-controller of the area measurement tool

    A shallow embedding of [src/ui/area-measurement-panel.ts].  The panel is
    a stateful object living on a shared event bus: it renders snapshots it
    receives, and forwards button presses as named events.  Handlers are
    written in a small state-and-error monad over a [World] made of the
    panel object, the store of snapshot objects the panel holds references
    into, and the log of the events the panel has fired. *)

From Stdlib Require Import Floats DecimalString.
From stdpp Require Import base strings list gmap.

Open Scope string_scope.

(** ** Data received from the tool *)

(** playcanvas' [Vec3], as far as the panel reads it. *)
Record Vec3 := { v_x : float; v_y : float; v_z : float }.

Record Edge := { e_length : float }.
Record NonPlanarity := { np_max : float; np_rms : float }.
Record Ridge := { r_i : nat; r_j : nat }.
Record Surface := { s_area : float; s_indices : list nat }.
Record SplitAreas := { sa_a : float; sa_b : float; sa_total : float }.

(** Modelled from the spec: the type [AreaMeasurementData] is declared in
    [area-measurement-tool], which is not part of this file.  The fields are
    those of the spec's data model, with the optionality the panel's field
    accesses rely on ([None] stands for [null] or an absent field). *)
Record AreaMeasurementData := {
  points : list Vec3;
  edges : list Edge;
  area : option float;
  nonPlanarity : option NonPlanarity;
  ridges : option (list Ridge);
  surfaces : option (list Surface);
  surfacesTotal : option float;
  splitSelection : option (list nat);
  splitAreas : option SplitAreas
}.

(** ** The panel object *)

(** A row of the points container, as [makePointRow] builds it: the label,
    the index captured by the [doRedo] and [doPick] closures, the styling of
    the Pick button and whether that button was appended to the row. *)
Record PointRow := {
  row_label : string;
  row_idx : nat;
  pick_background : option string;
  pick_color : string;
  row_has_pick : bool
}.

(** References to snapshot objects. *)
Definition loc := nat.

(** The fields of [this], the texts of the widgets it owns, and the two
    locals of the constructor captured by the Add Ridge closure. *)
Record Panel := {
  visible : bool;
  splitMode : bool;
  lastData : option loc;
  display : string;
  pointsContainer : list PointRow;
  edgesContainer : list string;
  ridgesContainer : list string;
  areaLabel : string;
  planarityLabel : string;
  splitResultLabel : string;
  ridgeToggleBtn : string;
  addRidgeBtn : string;
  addingAuto : bool
}.

Definition with_visible (b : bool) (p : Panel) : Panel :=
  {| visible := b; splitMode := splitMode p; lastData := lastData p;
     display := display p; pointsContainer := pointsContainer p;
     edgesContainer := edgesContainer p; ridgesContainer := ridgesContainer p;
     areaLabel := areaLabel p; planarityLabel := planarityLabel p;
     splitResultLabel := splitResultLabel p; ridgeToggleBtn := ridgeToggleBtn p;
     addRidgeBtn := addRidgeBtn p; addingAuto := addingAuto p |}.

Definition with_splitMode (b : bool) (p : Panel) : Panel :=
  {| visible := visible p; splitMode := b; lastData := lastData p;
     display := display p; pointsContainer := pointsContainer p;
     edgesContainer := edgesContainer p; ridgesContainer := ridgesContainer p;
     areaLabel := areaLabel p; planarityLabel := planarityLabel p;
     splitResultLabel := splitResultLabel p; ridgeToggleBtn := ridgeToggleBtn p;
     addRidgeBtn := addRidgeBtn p; addingAuto := addingAuto p |}.

Definition with_lastData (d : option loc) (p : Panel) : Panel :=
  {| visible := visible p; splitMode := splitMode p; lastData := d;
     display := display p; pointsContainer := pointsContainer p;
     edgesContainer := edgesContainer p; ridgesContainer := ridgesContainer p;
     areaLabel := areaLabel p; planarityLabel := planarityLabel p;
     splitResultLabel := splitResultLabel p; ridgeToggleBtn := ridgeToggleBtn p;
     addRidgeBtn := addRidgeBtn p; addingAuto := addingAuto p |}.

Definition with_display (s : string) (p : Panel) : Panel :=
  {| visible := visible p; splitMode := splitMode p; lastData := lastData p;
     display := s; pointsContainer := pointsContainer p;
     edgesContainer := edgesContainer p; ridgesContainer := ridgesContainer p;
     areaLabel := areaLabel p; planarityLabel := planarityLabel p;
     splitResultLabel := splitResultLabel p; ridgeToggleBtn := ridgeToggleBtn p;
     addRidgeBtn := addRidgeBtn p; addingAuto := addingAuto p |}.

Definition with_pointsContainer (l : list PointRow) (p : Panel) : Panel :=
  {| visible := visible p; splitMode := splitMode p; lastData := lastData p;
     display := display p; pointsContainer := l;
     edgesContainer := edgesContainer p; ridgesContainer := ridgesContainer p;
     areaLabel := areaLabel p; planarityLabel := planarityLabel p;
     splitResultLabel := splitResultLabel p; ridgeToggleBtn := ridgeToggleBtn p;
     addRidgeBtn := addRidgeBtn p; addingAuto := addingAuto p |}.

Definition with_edgesContainer (l : list string) (p : Panel) : Panel :=
  {| visible := visible p; splitMode := splitMode p; lastData := lastData p;
     display := display p; pointsContainer := pointsContainer p;
     edgesContainer := l; ridgesContainer := ridgesContainer p;
     areaLabel := areaLabel p; planarityLabel := planarityLabel p;
     splitResultLabel := splitResultLabel p; ridgeToggleBtn := ridgeToggleBtn p;
     addRidgeBtn := addRidgeBtn p; addingAuto := addingAuto p |}.

Definition with_ridgesContainer (l : list string) (p : Panel) : Panel :=
  {| visible := visible p; splitMode := splitMode p; lastData := lastData p;
     display := display p; pointsContainer := pointsContainer p;
     edgesContainer := edgesContainer p; ridgesContainer := l;
     areaLabel := areaLabel p; planarityLabel := planarityLabel p;
     splitResultLabel := splitResultLabel p; ridgeToggleBtn := ridgeToggleBtn p;
     addRidgeBtn := addRidgeBtn p; addingAuto := addingAuto p |}.

Definition with_areaLabel (s : string) (p : Panel) : Panel :=
  {| visible := visible p; splitMode := splitMode p; lastData := lastData p;
     display := display p; pointsContainer := pointsContainer p;
     edgesContainer := edgesContainer p; ridgesContainer := ridgesContainer p;
     areaLabel := s; planarityLabel := planarityLabel p;
     splitResultLabel := splitResultLabel p; ridgeToggleBtn := ridgeToggleBtn p;
     addRidgeBtn := addRidgeBtn p; addingAuto := addingAuto p |}.

Definition with_planarityLabel (s : string) (p : Panel) : Panel :=
  {| visible := visible p; splitMode := splitMode p; lastData := lastData p;
     display := display p; pointsContainer := pointsContainer p;
     edgesContainer := edgesContainer p; ridgesContainer := ridgesContainer p;
     areaLabel := areaLabel p; planarityLabel := s;
     splitResultLabel := splitResultLabel p; ridgeToggleBtn := ridgeToggleBtn p;
     addRidgeBtn := addRidgeBtn p; addingAuto := addingAuto p |}.

Definition with_splitResultLabel (s : string) (p : Panel) : Panel :=
  {| visible := visible p; splitMode := splitMode p; lastData := lastData p;
     display := display p; pointsContainer := pointsContainer p;
     edgesContainer := edgesContainer p; ridgesContainer := ridgesContainer p;
     areaLabel := areaLabel p; planarityLabel := planarityLabel p;
     splitResultLabel := s; ridgeToggleBtn := ridgeToggleBtn p;
     addRidgeBtn := addRidgeBtn p; addingAuto := addingAuto p |}.

Definition with_ridgeToggleBtn (s : string) (p : Panel) : Panel :=
  {| visible := visible p; splitMode := splitMode p; lastData := lastData p;
     display := display p; pointsContainer := pointsContainer p;
     edgesContainer := edgesContainer p; ridgesContainer := ridgesContainer p;
     areaLabel := areaLabel p; planarityLabel := planarityLabel p;
     splitResultLabel := splitResultLabel p; ridgeToggleBtn := s;
     addRidgeBtn := addRidgeBtn p; addingAuto := addingAuto p |}.

Definition with_addRidgeBtn (s : string) (p : Panel) : Panel :=
  {| visible := visible p; splitMode := splitMode p; lastData := lastData p;
     display := display p; pointsContainer := pointsContainer p;
     edgesContainer := edgesContainer p; ridgesContainer := ridgesContainer p;
     areaLabel := areaLabel p; planarityLabel := planarityLabel p;
     splitResultLabel := splitResultLabel p; ridgeToggleBtn := ridgeToggleBtn p;
     addRidgeBtn := s; addingAuto := addingAuto p |}.

Definition with_addingAuto (b : bool) (p : Panel) : Panel :=
  {| visible := visible p; splitMode := splitMode p; lastData := lastData p;
     display := display p; pointsContainer := pointsContainer p;
     edgesContainer := edgesContainer p; ridgesContainer := ridgesContainer p;
     areaLabel := areaLabel p; planarityLabel := planarityLabel p;
     splitResultLabel := splitResultLabel p; ridgeToggleBtn := ridgeToggleBtn p;
     addRidgeBtn := addRidgeBtn p; addingAuto := b |}.

(** ** The world: panel, snapshot store, fired events *)

(** What [events.fire(name, arg)] passes along. *)
Inductive Payload :=
| NoArg
| Index (idx : nat)
| Snapshot (l : loc).

(** One call of [this.events.fire]: the name, the argument, and the panel as
    it stood when the call was made (what a listener would observe). *)
Record Fired := {
  ev_name : string;
  ev_arg : Payload;
  ev_at : Panel
}.

Record World := {
  this : Panel;
  store : loc -> AreaMeasurementData;
  fired : list Fired
}.

Definition on_this (f : Panel -> Panel) (w : World) : World :=
  {| this := f (this w); store := store w; fired := fired w |}.

Definition on_store (f : (loc -> AreaMeasurementData) -> loc -> AreaMeasurementData)
    (w : World) : World :=
  {| this := this w; store := f (store w); fired := fired w |}.

Definition log_fired (e : Fired) (w : World) : World :=
  {| this := this w; store := store w; fired := fired w ++ [e] |}.

(** ** The monad of handlers *)

Inductive Error := OutOfFuel | TypeError.

Inductive Result (A : Type) :=
| Ok (a : A) (w : World)
| Throw (e : Error).
Arguments Ok {A} a w.
Arguments Throw {A} e.

Definition M (A : Type) : Type := World -> Result A.

#[global] Instance M_ret : MRet M := fun A a w => Ok a w.
#[global] Instance M_bind : MBind M := fun A B f m w =>
  match m w with
  | Ok a w' => f a w'
  | Throw e => Throw e
  end.

Definition throw {A} (e : Error) : M A := fun _ => Throw e.
Definition gets {A} (f : Panel -> A) : M A := fun w => Ok (f (this w)) w.
Definition deref (l : loc) : M AreaMeasurementData := fun w => Ok (store w l) w.
Definition modify (f : Panel -> Panel) : M unit := fun w => Ok tt (on_this f w).
Definition skip : M unit := mret tt.

(** [this.events.fire] as seen from the panel: the call is logged. Delivery
    to subscribers is layered on top of it below. *)
Definition record_fire (name : string) (arg : Payload) : M unit :=
  fun w => Ok tt (log_fired {| ev_name := name; ev_arg := arg; ev_at := this w |} w).

(** ** Formatting *)

(** Template-literal formatting of an index: its decimal digits. *)
Definition show_index (n : nat) : string :=
  NilEmpty.string_of_uint (Nat.to_uint n).

(** The planarity threshold, the double nearest to [0.2]. *)
Definition planarity_threshold : float := 0x1.999999999999ap-3%float.

(** [array.forEach((x, i) => ...)], starting at index [i]. *)
Fixpoint forEach {A} (f : A -> nat -> M unit) (l : list A) (i : nat) : M unit :=
  match l with
  | [] => skip
  | a :: l' => f a i ;; forEach f l' (S i)
  end.

(** The panel as the constructor leaves it. *)
Definition constructed : Panel :=
  {| visible := false; splitMode := false; lastData := None;
     display := "none"; pointsContainer := []; edgesContainer := [];
     ridgesContainer := []; areaLabel := "Area: ---"; planarityLabel := "";
     splitResultLabel := ""; ridgeToggleBtn := "Start Ridges";
     addRidgeBtn := "Add Ridge"; addingAuto := false |}.

Definition initial (st : loc -> AreaMeasurementData) : World :=
  {| this := constructed; store := st; fired := [] |}.

(** ** A decimal [toFixed] and a sample snapshot

    [Number.prototype.toFixed] is a parameter of the development.  To run
    the panel on concrete inputs it is instantiated with the decimal
    rendering below: the value rounded to [digits] decimals, ties away from
    zero in magnitude, as the built-in does for magnitudes under 1e21. *)

Definition pad_zeros (width : nat) (s : string) : string :=
  Nat.iter (width - String.length s) (String.append "0") s.

Definition scaled_magnitude (m : positive) (e : Z) (digits : nat) : Z :=
  let num := (Z.pos m * 10 ^ Z.of_nat digits)%Z in
  if (0 <=? e)%Z then (num * 2 ^ e)%Z
  else ((2 * num + 2 ^ (- e)) / 2 ^ (1 - e))%Z.

Definition toFixed_decimal (x : float) (digits : nat) : string :=
  let render (neg : bool) (n : Z) :=
    let scale := (10 ^ Z.of_nat digits)%Z in
    (if neg then "-" else "")
      +:+ show_index (Z.to_nat (n / scale))
      +:+ match digits with
          | 0 => ""
          | _ => "." +:+ pad_zeros digits (show_index (Z.to_nat (n mod scale)))
          end in
  match Prim2SF x with
  | S754_nan => "NaN"
  | S754_infinity neg => if neg then "-Infinity" else "Infinity"
  | S754_zero _ => render false 0%Z
  | S754_finite neg m e => render neg (scaled_magnitude m e digits)
  end.

(** A closed quadrilateral with one ridge, its two sub-surfaces and one
    point picked. *)
Definition sample_snapshot : AreaMeasurementData :=
  {| points := [ {| v_x := 0; v_y := 0; v_z := 0 |};
                 {| v_x := 2; v_y := 0; v_z := 0 |};
                 {| v_x := 2; v_y := 0; v_z := 1.5 |};
                 {| v_x := 0; v_y := 0.25; v_z := 1.5 |} ];
     edges := [ {| e_length := 2 |}; {| e_length := 1.5 |};
                {| e_length := 2.015625 |}; {| e_length := 1.5 |} ];
     area := Some 3%float;
     nonPlanarity := Some {| np_max := 0.25; np_rms := 0.125 |};
     ridges := Some [ {| r_i := 0; r_j := 2 |} ];
     surfaces := Some [ {| s_area := 1.5; s_indices := [0; 1; 2] |};
                        {| s_area := 1.5; s_indices := [0; 2; 3] |} ];
     surfacesTotal := Some 3%float;
     splitSelection := Some [1];
     splitAreas := None |}.

(** The same polygon once the tool has computed a split. *)
Definition sample_split_snapshot : AreaMeasurementData :=
  {| points := points sample_snapshot;
     edges := edges sample_snapshot;
     area := area sample_snapshot;
     nonPlanarity := Some {| np_max := 0.125; np_rms := 0.0625 |};
     ridges := ridges sample_snapshot;
     surfaces := surfaces sample_snapshot;
     surfacesTotal := surfacesTotal sample_snapshot;
     splitSelection := None;
     splitAreas := Some {| sa_a := 1.25; sa_b := 1.75; sa_total := 3 |} |}.

Definition sample_store (l : loc) : AreaMeasurementData :=
  match l with
  | 0 => sample_snapshot
  | _ => sample_split_snapshot
  end.

(** A freshly built panel, and one that is shown, in split mode, and holds
    the first snapshot. *)
Definition sample_world : World := initial sample_store.

Definition sample_split_world : World :=
  {| this := with_lastData (Some 0)
               (with_ridgeToggleBtn "Stop Ridges"
                  (with_splitMode true
                     (with_display "block" (with_visible true constructed))));
     store := sample_store;
     fired := [] |}.

Section AreaMeasurementPanel.

(** [Number.prototype.toFixed], a built-in of the language. *)
Variable toFixed : float -> nat -> string.

(** currently handled by ridgeToggleBtn label; nothing else to show/hide *)
Definition updateSplitButtons : M unit := skip.

(** [makePointRow(idx, p, used, selected)].  The listeners it attaches to the
    row's two buttons are those of [RedoBtn idx] and [PickBtn idx] in
    [listeners] below. *)
Definition makePointRow (idx : nat) (p : Vec3) (used selected : gset nat) : M PointRow :=
  sm ← gets splitMode;
  mret {| row_label := "P" +:+ show_index (idx + 1) +:+ ": " +:+ toFixed (v_x p) 3
                       +:+ ", " +:+ toFixed (v_y p) 3 +:+ ", " +:+ toFixed (v_z p) 3;
          row_idx := idx;
          pick_background :=
            if bool_decide (idx ∈ selected) then Some "#ffd400"
            else if bool_decide (idx ∈ used) then Some "#00bcd4"
            else None;
          pick_color := "#000";
          row_has_pick := sm |}.

Definition append_point (row : PointRow) : M unit :=
  modify (fun t => with_pointsContainer (pointsContainer t ++ [row]) t).
Definition append_edge (lbl : string) : M unit :=
  modify (fun t => with_edgesContainer (edgesContainer t ++ [lbl]) t).
Definition append_ridge (lbl : string) : M unit :=
  modify (fun t => with_ridgesContainer (ridgesContainer t ++ [lbl]) t).

Definition edge_text (e : Edge) (i : nat) : string :=
  "L" +:+ show_index (i + 1) +:+ ": " +:+ toFixed (e_length e) 3.
Definition ridge_text (r : Ridge) (idx : nat) : string :=
  "R" +:+ show_index (idx + 1) +:+ ": P" +:+ show_index (r_i r + 1)
      +:+ " ↔ P" +:+ show_index (r_j r + 1).
Definition surface_text (s : Surface) (idx : nat) : string :=
  "S" +:+ show_index (idx + 1) +:+ ": " +:+ toFixed (s_area s) 3 +:+ " (indices "
      +:+ String.concat "→" (map (fun i => "P" +:+ show_index (i + 1)) (s_indices s))
      +:+ ")".
Definition split_areas_text (sa : SplitAreas) : string :=
  "Split areas: " +:+ toFixed (sa_a sa) 3 +:+ " + " +:+ toFixed (sa_b sa) 3
      +:+ " = " +:+ toFixed (sa_total sa) 3.

(** The body of [update(data)], block by block as the method's comments
    divide it. *)

(* points *)
Definition update_points (data : AreaMeasurementData) : M unit :=
  modify (with_pointsContainer []) ;;
  let used : gset nat :=
    list_to_set (default [] (ridges data) ≫= fun r => [r_i r; r_j r]) in
  let selected : gset nat := list_to_set (default [] (splitSelection data)) in
  forEach (fun p i => row ← makePointRow i p used selected; append_point row)
          (points data) 0.

(* edges (render as simple labels without boxed container) *)
Definition update_edges (data : AreaMeasurementData) : M unit :=
  modify (with_edgesContainer []) ;;
  forEach (fun e i => append_edge (edge_text e i)) (edges data) 0.

(* area *)
Definition update_area (data : AreaMeasurementData) : M unit :=
  match area data with
  | Some a => modify (with_areaLabel ("Area: " +:+ toFixed a 3))
  | None => modify (with_areaLabel "Area: ---")
  end.

(* planarity: [if (np && np.max > 0.2) .. else if (np) .. else ..] *)
Definition update_planarity (data : AreaMeasurementData) : M unit :=
  match nonPlanarity data with
  | Some np =>
      if (planarity_threshold <? np_max np)%float
      then modify (with_planarityLabel
                     ("Non-planar: max " +:+ toFixed (np_max np) 3
                        +:+ ", rms " +:+ toFixed (np_rms np) 3))
      else modify (with_planarityLabel
                     ("Planarity OK (max " +:+ toFixed (np_max np) 3 +:+ ")"))
  | None => modify (with_planarityLabel "")
  end.

(* ridges list *)
Definition update_ridges_list (l : loc) (data : AreaMeasurementData) : M unit :=
  modify (with_lastData (Some l)) ;;
  modify (with_ridgesContainer []) ;;
  match ridges data with
  | Some ((_ :: _) as rs) => forEach (fun r idx => append_ridge (ridge_text r idx)) rs 0
  | _ => skip
  end ;;
  match surfaces data with
  | Some ((_ :: _) as ss) =>
      forEach (fun s idx => append_ridge (surface_text s idx)) ss 0 ;;
      match surfacesTotal data with
      | Some total => append_ridge ("Surfaces total: " +:+ toFixed total 3)
      | None => skip
      end
  | _ => skip
  end.

(* split results *)
Definition update_split_results (data : AreaMeasurementData) : M unit :=
  match splitAreas data with
  | Some sa =>
      modify (with_splitResultLabel (split_areas_text sa)) ;;
      (* leave split mode once we have results *)
      modify (with_splitMode false) ;;
      updateSplitButtons
  | None =>
      sm ← gets splitMode;
      if (sm : bool) then
        match default [] (splitSelection data) with
        | [s0] => modify (with_splitResultLabel
                            ("Pick second point (selected P" +:+ show_index (s0 + 1) +:+ ")..."))
        | _ => modify (with_splitResultLabel "Pick two points to split the polygon...")
        end
      else modify (with_splitResultLabel "")
  end.

(** [update(data)].  [data] is a reference to a snapshot object; its fields
    are read from the store.  No statement of the method assigns to the
    object, so one read at the start stands for all its field accesses. *)
Definition update (l : loc) : M unit :=
  data ← deref l;
  update_points data ;;
  update_edges data ;;
  update_area data ;;
  update_planarity data ;;
  update_ridges_list l data ;;
  update_split_results data.

(** [if (this.lastData) this.update(this.lastData)] *)
Definition rerender : M unit :=
  ld ← gets lastData;
  match (ld : option loc) with
  | Some l => update l
  | None => skip
  end.

(** ** Handlers that fire events *)

Section Handlers.

(** [this.events.fire] *)
Variable events_fire : string -> Payload -> M unit.

Definition clear_action : M unit :=
  events_fire "area.measure.disable.temporary" NoArg ;;
  (* reset split UI immediately for clarity *)
  sm ← gets splitMode;
  (if (sm : bool) then modify (with_splitMode false) ;; updateSplitButtons else skip) ;;
  modify (with_ridgeToggleBtn "Start Ridges") ;;
  events_fire "area.measure.ridge.stop" NoArg ;;
  events_fire "area.measure.split.cancel" NoArg ;;
  events_fire "area.measure.clear" NoArg.

Definition close_action : M unit :=
  events_fire "area.measure.disable.temporary" NoArg ;;
  events_fire "area.measure.closePolygon" NoArg.

Definition exit_action : M unit :=
  events_fire "area.measure.disable.temporary" NoArg ;;
  events_fire "area.measure.exit" NoArg.

Definition ridgeToggle_action : M unit :=
  events_fire "area.measure.disable.temporary" NoArg ;;
  modify (fun t => with_splitMode (negb (splitMode t)) t) ;;
  sm ← gets splitMode;
  (if (sm : bool) then
     modify (with_ridgeToggleBtn "Stop Ridges") ;;
     events_fire "area.measure.ridge.start" NoArg
   else
     modify (with_ridgeToggleBtn "Start Ridges") ;;
     events_fire "area.measure.ridge.stop" NoArg) ;;
  updateSplitButtons ;;
  rerender.

Definition addRidge_action : M unit :=
  events_fire "area.measure.disable.temporary" NoArg ;;
  sm ← gets splitMode;
  (if negb sm then modify (with_splitMode true) ;; updateSplitButtons else skip) ;;
  modify (fun t => with_addingAuto (negb (addingAuto t)) t) ;;
  auto ← gets addingAuto;
  if (auto : bool) then
    modify (with_addRidgeBtn "Stop Adding") ;;
    events_fire "area.measure.ridge.start" NoArg
  else
    modify (with_addRidgeBtn "Add Ridge") ;;
    events_fire "area.measure.ridge.stop" NoArg.

Definition undoRidge_action : M unit :=
  events_fire "area.measure.disable.temporary" NoArg ;;
  events_fire "area.measure.split.undo" NoArg.

Definition clearRidges_action : M unit :=
  events_fire "area.measure.disable.temporary" NoArg ;;
  events_fire "area.measure.split.clearAll" NoArg.

Definition doRedo (idx : nat) : M unit :=
  events_fire "area.measure.disable.temporary" NoArg ;;
  events_fire "area.measure.redo" (Index idx).

Definition doPick (idx : nat) : M unit :=
  sm ← gets splitMode;
  if negb sm then skip
  else
    events_fire "area.measure.disable.temporary" NoArg ;;
    events_fire "area.measure.split.select" (Index idx).

Definition show : M unit :=
  v ← gets visible;
  if negb v then
    modify (with_visible true) ;;
    modify (with_display "block") ;;
    updateSplitButtons
  else skip.

Definition hide : M unit :=
  v ← gets visible;
  if (v : bool) then
    modify (with_visible false) ;;
    modify (with_display "none") ;;
    (* reset ridge/split UI state and notify tool to cancel any split selection *)
    sm ← gets splitMode;
    (if (sm : bool) then modify (with_splitMode false) ;; updateSplitButtons else skip) ;;
    modify (with_ridgeToggleBtn "Start Ridges") ;;
    modify (with_splitResultLabel "") ;;
    modify (with_planarityLabel "") ;;
    events_fire "area.measure.ridge.stop" NoArg ;;
    events_fire "area.measure.split.cancel" NoArg
  else skip.

Definition toggle : M unit :=
  v ← gets visible;
  if (v : bool) then hide else show.

(** ** Subscriptions on the bus *)

(** The parameter of the two [updated] handlers is declared as
    [AreaMeasurementData]. *)
Definition as_snapshot (arg : Payload) : M loc :=
  match arg with
  | Snapshot l => mret l
  | _ => throw TypeError
  end.

Definition on_updated_render (arg : Payload) : M unit :=
  data ← as_snapshot arg; update data.

(** keep a copy of last data to force immediate re-render when toggling *)
Definition on_updated_cache (arg : Payload) : M unit :=
  d ← as_snapshot arg; modify (with_lastData (Some d)).

(** keep UI split mode in sync if tool cancels split (e.g., after clear) *)
Definition on_split_cancel (_ : Payload) : M unit :=
  sm ← gets splitMode;
  if (sm : bool) then
    modify (with_splitMode false) ;;
    modify (with_ridgeToggleBtn "Start Ridges") ;;
    updateSplitButtons ;;
    modify (with_splitResultLabel "") ;;
    rerender
  else skip.

Definition on_ridge_stop (_ : Payload) : M unit :=
  sm ← gets splitMode;
  if (sm : bool) then
    modify (with_splitMode false) ;;
    modify (with_ridgeToggleBtn "Start Ridges") ;;
    updateSplitButtons ;;
    rerender
  else skip.

(** The calls of [this.events.on] in the constructor, in their order. *)
Definition subscriptions : list (string * (Payload -> M unit)) :=
  [ ("area.measure.updated", on_updated_render);
    ("area.measure.show", fun _ => show);
    ("area.measure.hide", fun _ => hide);
    ("area.measure.show", fun _ => show);
    ("area.measure.updated", on_updated_cache);
    ("area.measure.split.cancel", on_split_cancel);
    ("area.measure.ridge.stop", on_ridge_stop) ].

(** ** Buttons and their listeners *)

Inductive Button :=
| ClearBtn | CloseBtn | ExitBtn | RidgeToggleBtn
| AddRidgeBtn | UndoRidgeBtn | ClearRidgesBtn
| RedoBtn (idx : nat)
| PickBtn (idx : nat).

(** The three ways a listener is attached: PCUI's [on('click')], and
    capturing DOM listeners for [click] and [pointerdown]. *)
Inductive Channel := PcuiClick | DomClick | DomPointerDown.

(** Bind actions robustly (both PCUI and raw DOM): the same action on all
    three channels. *)
Definition bindBtn (action : M unit) : list (Channel * M unit) :=
  [ (PcuiClick, action); (DomClick, action); (DomPointerDown, action) ].

(** The listeners of each button, in the order they are attached.  The
    [pointerdown] listeners of a row's buttons only stop the event. *)
Definition listeners (b : Button) : list (Channel * M unit) :=
  match b with
  | ClearBtn => bindBtn clear_action
  | CloseBtn => bindBtn close_action
  | ExitBtn => bindBtn exit_action
  | RidgeToggleBtn => [ (PcuiClick, ridgeToggle_action) ]
  | AddRidgeBtn => [ (PcuiClick, addRidge_action) ]
  | UndoRidgeBtn => [ (PcuiClick, undoRidge_action) ]
  | ClearRidgesBtn => [ (PcuiClick, clearRidges_action) ]
  | RedoBtn idx =>
      [ (PcuiClick, doRedo idx); (DomClick, doRedo idx); (DomPointerDown, skip) ]
  | PickBtn idx =>
      [ (PcuiClick, doPick idx); (DomClick, doPick idx); (DomPointerDown, skip) ]
  end.

End Handlers.

(** ** The event bus *)

Fixpoint call_subscribers (subs : list (string * (Payload -> M unit)))
    (name : string) (arg : Payload) : M unit :=
  match subs with
  | [] => skip
  | (n, h) :: rest =>
      (if String.eqb n name then h arg else skip) ;;
      call_subscribers rest name arg
  end.

(** Modelled from the spec: the shared bus is the class [Events], which is
    not part of this file.  Delivering an event calls, at once and in the
    order of registration, the handlers the panel registered under its
    name; the handlers of other components are not part of the panel and
    show up as later inputs.  [fuel] bounds the nesting of deliveries (a
    handler that fires an event the panel itself listens to). *)
Fixpoint deliver (fuel : nat) (name : string) (arg : Payload) : M unit :=
  match fuel with
  | 0 => throw OutOfFuel
  | S n =>
      call_subscribers
        (subscriptions (fun nm a => record_fire nm a ;; deliver n nm a)) name arg
  end.

(** [this.events.fire(name, arg)] *)
Definition fire (fuel : nat) (name : string) (arg : Payload) : M unit :=
  record_fire name arg ;; deliver fuel name arg.

(** ** Inputs of the panel *)

Definition Channel_eqb (a b : Channel) : bool :=
  match a, b with
  | PcuiClick, PcuiClick | DomClick, DomClick | DomPointerDown, DomPointerDown => true
  | _, _ => false
  end.

Fixpoint run_listeners (ls : list (Channel * M unit)) (ch : Channel) : M unit :=
  match ls with
  | [] => skip
  | (c, action) :: rest =>
      (if Channel_eqb c ch then action else skip) ;; run_listeners rest ch
  end.

(** The browser (or PCUI) delivers an event of kind [ch] to button [b]. *)
Definition dispatch (fuel : nat) (b : Button) (ch : Channel) : M unit :=
  run_listeners (listeners (fire fuel) b) ch.

Inductive Input :=
| Bus (name : string) (arg : Payload)   (* another component fires on the bus *)
| Ui (b : Button) (ch : Channel)        (* pointer input on a button *)
| Call_toggle | Call_show | Call_hide   (* the public methods *)
| Tool_writes (l : loc) (d : AreaMeasurementData). (* the tool updates a snapshot object *)

Definition step (fuel : nat) (i : Input) : M unit :=
  match i with
  | Bus name arg => deliver fuel name arg
  | Ui b ch => dispatch fuel b ch
  | Call_toggle => toggle (fire fuel)
  | Call_show => show
  | Call_hide => hide (fire fuel)
  | Tool_writes l d =>
      fun w => Ok tt (on_store (fun st l' => if Nat.eqb l' l then d else st l') w)
  end.

Fixpoint run (fuel : nat) (inputs : list Input) : M unit :=
  match inputs with
  | [] => skip
  | i :: rest => step fuel i ;; run fuel rest
  end.

(** The payload of [area.measure.updated] is a snapshot, as its handlers
    declare. *)
Definition well_typed (i : Input) : bool :=
  match i with
  | Bus name arg =>
      if String.eqb name "area.measure.updated"
      then match arg with Snapshot _ => true | _ => false end
      else true
  | _ => true
  end.

(** Pointer input reaches a button only while the panel is displayed; the
    bus and the public methods are always available.  The reachable worlds
    are those the panel gets to from its construction, every input being
    run with fuel for its nested deliveries. *)
Definition deliverable (i : Input) (w : World) : Prop :=
  match i with
  | Ui _ _ => display (this w) = "block"
  | _ => True
  end.

Inductive reachable : World -> Prop :=
| reachable_initial st : reachable (initial st)
| reachable_step n i w w' :
    reachable w -> deliverable i w -> step (S (S n)) i w = Ok tt w' -> reachable w'.

(** The names the panel listens to and the names it fires, as the spec's
    external-interface section lists them. *)
Definition consumed_names : list string :=
  [ "area.measure.updated"; "area.measure.show"; "area.measure.hide";
    "area.measure.split.cancel"; "area.measure.ridge.stop" ].

Definition produced_names : list string :=
  [ "area.measure.disable.temporary"; "area.measure.clear";
    "area.measure.closePolygon"; "area.measure.exit";
    "area.measure.ridge.start"; "area.measure.ridge.stop";
    "area.measure.redo"; "area.measure.split.select";
    "area.measure.split.cancel"; "area.measure.split.undo";
    "area.measure.split.clearAll" ].

(** The events fired during a computation: what it appended to the log. *)
Definition fired_since (w w' : World) : list Fired :=
  drop (length (fired w)) (fired w').

Definition call_of (e : Fired) : string * Payload := (ev_name e, ev_arg e).

(** [click] as opposed to [pointerdown]. *)
Definition is_click (ch : Channel) : bool :=
  match ch with
  | DomPointerDown => false
  | _ => true
  end.

(** ** What [update] leaves behind, in closed form *)

Fixpoint mapi_from {A B} (f : A -> nat -> B) (l : list A) (i : nat) : list B :=
  match l with
  | [] => []
  | a :: l' => f a i :: mapi_from f l' (S i)
  end.

Definition used_indices (d : AreaMeasurementData) : gset nat :=
  list_to_set (default [] (ridges d) ≫= fun r => [r_i r; r_j r]).
Definition selected_indices (d : AreaMeasurementData) : gset nat :=
  list_to_set (default [] (splitSelection d)).

Definition point_row (sm : bool) (d : AreaMeasurementData) (p : Vec3) (idx : nat) : PointRow :=
  {| row_label := "P" +:+ show_index (idx + 1) +:+ ": " +:+ toFixed (v_x p) 3
                  +:+ ", " +:+ toFixed (v_y p) 3 +:+ ", " +:+ toFixed (v_z p) 3;
     row_idx := idx;
     pick_background :=
       if bool_decide (idx ∈ selected_indices d) then Some "#ffd400"
       else if bool_decide (idx ∈ used_indices d) then Some "#00bcd4"
       else None;
     pick_color := "#000";
     row_has_pick := sm |}.

Definition area_text (d : AreaMeasurementData) : string :=
  match area d with
  | Some a => "Area: " +:+ toFixed a 3
  | None => "Area: ---"
  end.

Definition planarity_text (d : AreaMeasurementData) : string :=
  match nonPlanarity d with
  | Some np =>
      if (planarity_threshold <? np_max np)%float
      then "Non-planar: max " +:+ toFixed (np_max np) 3
             +:+ ", rms " +:+ toFixed (np_rms np) 3
      else "Planarity OK (max " +:+ toFixed (np_max np) 3 +:+ ")"
  | None => ""
  end.

Definition ridge_lines (d : AreaMeasurementData) : list string :=
  mapi_from ridge_text (default [] (ridges d)) 0
  ++ match surfaces d with
     | Some ((_ :: _) as ss) =>
         mapi_from surface_text ss 0
         ++ match surfacesTotal d with
            | Some total => [ "Surfaces total: " +:+ toFixed total 3 ]
            | None => []
            end
     | _ => []
     end.

Definition split_text (sm : bool) (d : AreaMeasurementData) : string :=
  match splitAreas d with
  | Some sa => split_areas_text sa
  | None =>
      if sm then
        match default [] (splitSelection d) with
        | [s0] => "Pick second point (selected P" +:+ show_index (s0 + 1) +:+ ")..."
        | _ => "Pick two points to split the polygon..."
        end
      else ""
  end.

Definition update_panel (l : loc) (d : AreaMeasurementData) (t : Panel) : Panel :=
  {| visible := visible t;
     splitMode := match splitAreas d with Some _ => false | None => splitMode t end;
     lastData := Some l;
     display := display t;
     pointsContainer := mapi_from (point_row (splitMode t) d) (points d) 0;
     edgesContainer := mapi_from edge_text (edges d) 0;
     ridgesContainer := ridge_lines d;
     areaLabel := area_text d;
     planarityLabel := planarity_text d;
     splitResultLabel := split_text (splitMode t) d;
     ridgeToggleBtn := ridgeToggleBtn t;
     addRidgeBtn := addRidgeBtn t;
     addingAuto := addingAuto t |}.

(** The world a re-render leaves. *)
Definition rerendered (w : World) : World :=
  match lastData (this w) with
  | Some l => on_this (update_panel l (store w l)) w
  | None => w
  end.

(** The world after one call of [events.fire] that reaches no handler of the
    panel. *)
Definition logged (name : string) (arg : Payload) (w : World) : World :=
  log_fired {| ev_name := name; ev_arg := arg; ev_at := this w |} w.

(** The worlds the panel's own [ridge.stop] and [split.cancel] handlers leave. *)
Definition after_ridge_stop (w : World) : World :=
  if splitMode (this w)
  then rerendered
         (on_this (fun t => with_ridgeToggleBtn "Start Ridges" (with_splitMode false t)) w)
  else w.

Definition after_split_cancel (w : World) : World :=
  if splitMode (this w)
  then rerendered
         (on_this (fun t => with_splitResultLabel ""
                              (with_ridgeToggleBtn "Start Ridges"
                                 (with_splitMode false t))) w)
  else w.

(** What the panel shows of a snapshot: the rows, lines and labels that
    [update] writes. *)
Definition rendered_view (t : Panel)
  : list PointRow * list string * list string * string * string * string :=
  (pointsContainer t, edgesContainer t, ridgesContainer t,
   areaLabel t, planarityLabel t, splitResultLabel t).

(** [w'] extends the log of [w], and only by produced names. *)
Definition fires_produced_only (w w' : World) : Prop :=
  exists new, fired w' = (fired w ++ new)%list
              /\ Forall (fun e => ev_name e ∈ produced_names) new.

(** What holds of the panel between inputs: it is displayed exactly while
    [visible], and a hidden panel is not in split mode. *)
Definition settled (t : Panel) : Prop :=
  (visible t = false -> splitMode t = false)
  /\ (display t = "block" -> visible t = true).

(** [t'] is neither more shown nor more hidden than [t], and split mode was
    not switched on from [t] to [t']. *)
Definition calmer (t' t : Panel) : Prop :=
  visible t' = visible t /\ display t' = display t
  /\ (splitMode t' = true -> splitMode t = true).

(** The display style agrees with [visible]. *)
Definition displayed_as_visible (t : Panel) : Prop :=
  display t = if visible t then "block" else "none".

(** A panel that holds no snapshot shows none: its containers are empty and
    its labels are as the constructor set them. *)
Definition blank (t : Panel) : Prop :=
  lastData t = None ->
  pointsContainer t = [] /\ edgesContainer t = [] /\ ridgesContainer t = []
  /\ areaLabel t = "Area: ---" /\ planarityLabel t = "" /\ splitResultLabel t = "".

Definition is_tool_write (i : Input) : bool :=
  match i with
  | Tool_writes _ _ => true
  | _ => false
  end.

(** The two inputs whose handlers assign [true] to [splitMode]. *)
Definition enters_split_mode (i : Input) : bool :=
  match i with
  | Ui RidgeToggleBtn PcuiClick | Ui AddRidgeBtn PcuiClick => true
  | _ => false
  end.

(** What one input does and does not do to the world. *)
Definition step_facts (i : Input) (w w' : World) : Prop :=
  (is_tool_write i = false -> store w' = store w)
  /\ (enters_split_mode i = false ->
      splitMode (this w') = true -> splitMode (this w) = true)
  /\ (blank (this w) -> blank (this w'))
  /\ (displayed_as_visible (this w) -> displayed_as_visible (this w'))
  /\ (lastData (this w') = None -> lastData (this w) = None).

(** * Properties *)

(** ** The monad *)

Lemma bind_Ok {A B} (m : M A) (f : A -> M B) (w w' : World) (a : A) :
  m w = Ok a w' -> (m ≫= f) w = f a w'.
Proof. intros H. unfold mbind, M_bind. now rewrite H. Qed.

Lemma bind_Throw {A B} (m : M A) (f : A -> M B) (w : World) (e : Error) :
  m w = Throw e -> (m ≫= f) w = Throw e.
Proof. intros H. unfold mbind, M_bind. now rewrite H. Qed.

Lemma World_eta (w : World) :
  {| this := this w; store := store w; fired := fired w |} = w.
Proof. now destruct w. Qed.

Lemma on_this_id (f : Panel -> Panel) (w : World) :
  f (this w) = this w -> on_this f w = w.
Proof. intros H. unfold on_this. rewrite H. apply World_eta. Qed.

Lemma on_this_ext (f g : Panel -> Panel) (w : World) :
  f (this w) = g (this w) -> on_this f w = on_this g w.
Proof. intros H. unfold on_this. now rewrite H. Qed.

(** ** The loops of [update] *)

Lemma forEach_points d ps i w :
  forEach (fun p i => row ← makePointRow i p (used_indices d) (selected_indices d);
                      append_point row) ps i w
  = Ok tt (on_this (fun t => with_pointsContainer
                               (pointsContainer t ++ mapi_from (point_row (splitMode t) d) ps i) t) w).
Proof.
  revert i w. induction ps as [|p ps IH]; intros i w.
  - cbn. f_equal. symmetry. apply on_this_id.
    destruct (this w). cbn. now rewrite app_nil_r.
  - cbn [forEach]. erewrite bind_Ok by reflexivity. rewrite IH.
    f_equal. unfold on_this. cbn. f_equal.
    unfold with_pointsContainer. cbn. f_equal. now rewrite <- app_assoc.
Qed.

Lemma forEach_edges es i w :
  forEach (fun e i => append_edge (edge_text e i)) es i w
  = Ok tt (on_this (fun t => with_edgesContainer
                               (edgesContainer t ++ mapi_from edge_text es i) t) w).
Proof.
  revert i w. induction es as [|e es IH]; intros i w.
  - cbn. f_equal. symmetry. apply on_this_id.
    destruct (this w). cbn. now rewrite app_nil_r.
  - cbn [forEach]. erewrite bind_Ok by reflexivity. rewrite IH.
    f_equal. unfold on_this. cbn. f_equal.
    unfold with_edgesContainer. cbn. f_equal. now rewrite <- app_assoc.
Qed.

Lemma forEach_ridge_lines {A} (text : A -> nat -> string) xs i w :
  forEach (fun x idx => append_ridge (text x idx)) xs i w
  = Ok tt (on_this (fun t => with_ridgesContainer
                               (ridgesContainer t ++ mapi_from text xs i) t) w).
Proof.
  revert i w. induction xs as [|x xs IH]; intros i w.
  - cbn. f_equal. symmetry. apply on_this_id.
    destruct (this w). cbn. now rewrite app_nil_r.
  - cbn [forEach]. erewrite bind_Ok by reflexivity. rewrite IH.
    f_equal. unfold on_this. cbn. f_equal.
    unfold with_ridgesContainer. cbn. f_equal. now rewrite <- app_assoc.
Qed.

(** ** [update] block by block *)

Lemma update_points_spec d w :
  update_points d w
  = Ok tt (on_this (fun t => with_pointsContainer
                               (mapi_from (point_row (splitMode t) d) (points d) 0) t) w).
Proof.
  unfold update_points. erewrite bind_Ok by reflexivity.
  etrans; [apply (forEach_points d)|]. reflexivity.
Qed.

Lemma update_edges_spec d w :
  update_edges d w
  = Ok tt (on_this (with_edgesContainer (mapi_from edge_text (edges d) 0)) w).
Proof.
  unfold update_edges. erewrite bind_Ok by reflexivity.
  rewrite forEach_edges. reflexivity.
Qed.

Lemma update_area_spec d w :
  update_area d w = Ok tt (on_this (with_areaLabel (area_text d)) w).
Proof. unfold update_area, area_text. now destruct (area d). Qed.

Lemma update_planarity_spec d w :
  update_planarity d w = Ok tt (on_this (with_planarityLabel (planarity_text d)) w).
Proof.
  unfold update_planarity, planarity_text.
  destruct (nonPlanarity d) as [np|]; [|reflexivity].
  now destruct (planarity_threshold <? np_max np)%float.
Qed.

Lemma append_nothing w :
  Ok tt w = Ok tt (on_this (fun t => with_ridgesContainer (ridgesContainer t ++ []) t) w).
Proof.
  f_equal. symmetry. apply on_this_id.
  destruct (this w). cbn. now rewrite app_nil_r.
Qed.

Lemma ridges_loop_spec d w :
  match ridges d with
  | Some ((_ :: _) as rs) => forEach (fun r idx => append_ridge (ridge_text r idx)) rs 0
  | _ => skip
  end w
  = Ok tt (on_this (fun t => with_ridgesContainer
                               (ridgesContainer t
                                  ++ mapi_from ridge_text (default [] (ridges d)) 0) t) w).
Proof.
  destruct (ridges d) as [[|r rs]|]; cbn [default mapi_from].
  - apply append_nothing.
  - apply forEach_ridge_lines.
  - apply append_nothing.
Qed.

Lemma surfaces_loop_spec d w :
  match surfaces d with
  | Some ((_ :: _) as ss) =>
      forEach (fun s idx => append_ridge (surface_text s idx)) ss 0 ;;
      match surfacesTotal d with
      | Some total => append_ridge ("Surfaces total: " +:+ toFixed total 3)
      | None => skip
      end
  | _ => skip
  end w
  = Ok tt (on_this (fun t => with_ridgesContainer
             (ridgesContainer t
                ++ match surfaces d with
                   | Some ((_ :: _) as ss) =>
                       mapi_from surface_text ss 0
                       ++ match surfacesTotal d with
                          | Some total => [ "Surfaces total: " +:+ toFixed total 3 ]
                          | None => []
                          end
                   | _ => []
                   end) t) w).
Proof.
  destruct (surfaces d) as [[|s ss]|].
  - apply append_nothing.
  - erewrite bind_Ok by apply forEach_ridge_lines.
    destruct (surfacesTotal d);
      unfold append_ridge, modify, skip, mret, M_ret, on_this, with_ridgesContainer;
      cbn; do 3 f_equal.
    + now rewrite <- app_assoc.
    + now rewrite app_nil_r.
  - apply append_nothing.
Qed.

Lemma update_ridges_list_spec l d w :
  update_ridges_list l d w
  = Ok tt (on_this (fun t => with_ridgesContainer (ridge_lines d)
                               (with_lastData (Some l) t)) w).
Proof.
  unfold update_ridges_list, ridge_lines.
  do 2 (erewrite bind_Ok by reflexivity).
  erewrite bind_Ok by apply ridges_loop_spec.
  rewrite surfaces_loop_spec. reflexivity.
Qed.

Lemma update_split_results_spec d w :
  update_split_results d w
  = Ok tt (on_this (fun t =>
             with_splitMode (match splitAreas d with
                             | Some _ => false
                             | None => splitMode t
                             end)
               (with_splitResultLabel (split_text (splitMode t) d) t)) w).
Proof.
  unfold update_split_results, split_text.
  destruct (splitAreas d) as [sa|]; [reflexivity|].
  erewrite bind_Ok by reflexivity.
  destruct w as [t st fd]. destruct t. cbn.
  destruct splitMode0; [|reflexivity].
  destruct (default [] (splitSelection d)) as [|s0 [|s1 sel]]; reflexivity.
Qed.

(** [update] always returns, fires nothing, leaves the store alone, and the
    panel it leaves is [update_panel]. *)
Lemma update_spec l w :
  update l w = Ok tt (on_this (update_panel l (store w l)) w).
Proof.
  unfold update. erewrite bind_Ok by reflexivity.
  erewrite bind_Ok by apply update_points_spec.
  erewrite bind_Ok by apply update_edges_spec.
  erewrite bind_Ok by apply update_area_spec.
  erewrite bind_Ok by apply update_planarity_spec.
  erewrite bind_Ok by apply update_ridges_list_spec.
  rewrite update_split_results_spec.
  reflexivity.
Qed.

Lemma rerender_spec w : rerender w = Ok tt (rerendered w).
Proof.
  unfold rerender, rerendered. erewrite bind_Ok by reflexivity.
  destruct (lastData (this w)); [apply update_spec|reflexivity].
Qed.

(** ** Delivery on the bus *)

Lemma bind_skip_r (m : M unit) (w : World) : (m ;; skip) w = m w.
Proof.
  unfold mbind, M_bind. destruct (m w) as [[] w'|e]; reflexivity.
Qed.

Ltac eval_names :=
  repeat match goal with
         | |- context [String.eqb ?a ?b] =>
             let v := eval vm_compute in (String.eqb a b) in
             match v with
             | true => change (String.eqb a b) with true
             | false => change (String.eqb a b) with false
             end
         end;
  cbv beta iota.

Lemma skip_l {B} (k : unit -> M B) (w : World) : (skip ≫= k) w = k tt w.
Proof. reflexivity. Qed.

Lemma deliver_ridge_stop n arg w :
  deliver (S n) "area.measure.ridge.stop" arg w = on_ridge_stop arg w.
Proof.
  cbn [deliver subscriptions call_subscribers]. eval_names.
  rewrite <- (bind_skip_r (on_ridge_stop arg) w). reflexivity.
Qed.

Lemma deliver_split_cancel n arg w :
  deliver (S n) "area.measure.split.cancel" arg w = on_split_cancel arg w.
Proof.
  cbn [deliver subscriptions call_subscribers]. eval_names.
  rewrite <- (bind_skip_r (on_split_cancel arg) w). reflexivity.
Qed.

(** A name the panel has not subscribed to is delivered to no handler. *)
Lemma deliver_unheard n name arg w :
  name ∉ consumed_names -> deliver (S n) name arg w = Ok tt w.
Proof.
  intros Hn. cbn [deliver subscriptions call_subscribers].
  assert (Hne : forall c, c ∈ consumed_names -> String.eqb c name = false).
  { intros c Hc. apply String.eqb_neq. intros ->. contradiction. }
  rewrite !Hne by (unfold consumed_names; set_solver).
  reflexivity.
Qed.

Lemma on_ridge_stop_spec arg w : on_ridge_stop arg w = Ok tt (after_ridge_stop w).
Proof.
  unfold on_ridge_stop, after_ridge_stop. erewrite bind_Ok by reflexivity.
  destruct (splitMode (this w)); [|reflexivity].
  do 3 (erewrite bind_Ok by reflexivity). apply rerender_spec.
Qed.

Lemma on_split_cancel_spec arg w : on_split_cancel arg w = Ok tt (after_split_cancel w).
Proof.
  unfold on_split_cancel, after_split_cancel. erewrite bind_Ok by reflexivity.
  destruct (splitMode (this w)); [|reflexivity].
  do 4 (erewrite bind_Ok by reflexivity). apply rerender_spec.
Qed.

Lemma fire_unheard n name arg w :
  name ∉ consumed_names -> fire (S n) name arg w = Ok tt (logged name arg w).
Proof.
  intros Hn. unfold fire. erewrite bind_Ok by reflexivity.
  now apply deliver_unheard.
Qed.

Lemma fire_ridge_stop n arg w :
  fire (S n) "area.measure.ridge.stop" arg w
  = Ok tt (after_ridge_stop (logged "area.measure.ridge.stop" arg w)).
Proof.
  unfold fire. erewrite bind_Ok by reflexivity.
  rewrite deliver_ridge_stop. apply on_ridge_stop_spec.
Qed.

Lemma fire_split_cancel n arg w :
  fire (S n) "area.measure.split.cancel" arg w
  = Ok tt (after_split_cancel (logged "area.measure.split.cancel" arg w)).
Proof.
  unfold fire. erewrite bind_Ok by reflexivity.
  rewrite deliver_split_cancel. apply on_split_cancel_spec.
Qed.

Lemma after_ridge_stop_idle w : splitMode (this w) = false -> after_ridge_stop w = w.
Proof. intros H. unfold after_ridge_stop. now rewrite H. Qed.

Lemma after_split_cancel_idle w : splitMode (this w) = false -> after_split_cancel w = w.
Proof. intros H. unfold after_split_cancel. now rewrite H. Qed.

(** One step of a handler's body: evaluate the computation at the head of a
    bind and continue with the rest. *)
Ltac unheard := unfold consumed_names; compute_done.
Lemma bind_assoc {A B C} (m : M A) (f : A -> M B) (g : B -> M C) (w : World) :
  ((m ≫= f) ≫= g) w = (m ≫= fun a => f a ≫= g) w.
Proof. unfold mbind, M_bind. now destruct (m w). Qed.

Ltac mhead :=
  lazymatch goal with
  | |- fire (S _) "area.measure.ridge.stop" _ _ = _ => apply fire_ridge_stop
  | |- fire (S _) "area.measure.split.cancel" _ _ = _ => apply fire_split_cancel
  | |- fire (S _) _ _ _ = _ => apply fire_unheard; unheard
  | |- rerender _ = _ => apply rerender_spec
  | |- update _ _ = _ => apply update_spec
  | |- gets _ _ = _ => reflexivity
  | |- modify _ _ = _ => reflexivity
  | |- skip _ = _ => reflexivity
  | |- updateSplitButtons _ = _ => reflexivity
  | |- mret _ _ = _ => reflexivity
  | |- deref _ _ = _ => reflexivity
  end.
Ltac mstep := rewrite ?bind_assoc; erewrite bind_Ok by mhead.
Ltac mrun := repeat mstep; (etrans; [mhead|]).

Lemma with_splitMode_same (t : Panel) b : splitMode t = b -> with_splitMode b t = t.
Proof. intros <-. now destruct t. Qed.

Lemma clear_action_spec n w :
  clear_action (fire (S n)) w
  = Ok tt (logged "area.measure.clear" NoArg
             (logged "area.measure.split.cancel" NoArg
                (logged "area.measure.ridge.stop" NoArg
                   (on_this (fun t => with_ridgeToggleBtn "Start Ridges"
                                        (with_splitMode false t))
                      (logged "area.measure.disable.temporary" NoArg w))))).
Proof.
  unfold clear_action. do 2 mstep.
  change (splitMode (this (logged _ _ w))) with (splitMode (this w)).
  destruct (splitMode (this w)) eqn:Hsm; mrun.
  - rewrite after_ridge_stop_idle, after_split_cancel_idle by reflexivity.
    reflexivity.
  - rewrite after_ridge_stop_idle, after_split_cancel_idle by exact Hsm.
    do 4 f_equal. apply on_this_ext. cbn [this logged log_fired].
    now rewrite with_splitMode_same.
Qed.

Lemma close_action_spec n w :
  close_action (fire (S n)) w
  = Ok tt (logged "area.measure.closePolygon" NoArg
             (logged "area.measure.disable.temporary" NoArg w)).
Proof. unfold close_action. mrun. reflexivity. Qed.

Lemma exit_action_spec n w :
  exit_action (fire (S n)) w
  = Ok tt (logged "area.measure.exit" NoArg
             (logged "area.measure.disable.temporary" NoArg w)).
Proof. unfold exit_action. mrun. reflexivity. Qed.

Lemma undoRidge_action_spec n w :
  undoRidge_action (fire (S n)) w
  = Ok tt (logged "area.measure.split.undo" NoArg
             (logged "area.measure.disable.temporary" NoArg w)).
Proof. unfold undoRidge_action. mrun. reflexivity. Qed.

Lemma clearRidges_action_spec n w :
  clearRidges_action (fire (S n)) w
  = Ok tt (logged "area.measure.split.clearAll" NoArg
             (logged "area.measure.disable.temporary" NoArg w)).
Proof. unfold clearRidges_action. mrun. reflexivity. Qed.

Lemma doRedo_spec n idx w :
  doRedo (fire (S n)) idx w
  = Ok tt (logged "area.measure.redo" (Index idx)
             (logged "area.measure.disable.temporary" NoArg w)).
Proof. unfold doRedo. mrun. reflexivity. Qed.

Lemma doPick_spec n idx w :
  doPick (fire (S n)) idx w
  = Ok tt (if splitMode (this w)
           then logged "area.measure.split.select" (Index idx)
                  (logged "area.measure.disable.temporary" NoArg w)
           else w).
Proof.
  unfold doPick. mstep. destruct (splitMode (this w)); cbn [negb].
  - mrun. reflexivity.
  - reflexivity.
Qed.

Lemma ridgeToggle_action_spec n w :
  ridgeToggle_action (fire (S n)) w
  = Ok tt (let on := negb (splitMode (this w)) in
           rerendered
             (logged (if on then "area.measure.ridge.start"
                      else "area.measure.ridge.stop") NoArg
                (on_this (fun t => with_ridgeToggleBtn
                                     (if on then "Stop Ridges" else "Start Ridges")
                                     (with_splitMode on t))
                   (logged "area.measure.disable.temporary" NoArg w)))).
Proof.
  unfold ridgeToggle_action. do 3 mstep.
  change (on_this (fun t : Panel => with_splitMode (negb (splitMode t)) t)
            (logged "area.measure.disable.temporary" NoArg w))
    with (on_this (with_splitMode (negb (splitMode (this w))))
            (logged "area.measure.disable.temporary" NoArg w)).
  destruct (splitMode (this w)) eqn:Hsm; cbn [negb];
    cbn [this on_this logged log_fired splitMode with_splitMode].
  - mrun. rewrite after_ridge_stop_idle by reflexivity. reflexivity.
  - mrun. reflexivity.
Qed.

Lemma addRidge_action_spec n w :
  addRidge_action (fire (S n)) w
  = Ok tt (let auto := negb (addingAuto (this w)) in
           let w1 := on_this (fun t => with_addRidgeBtn
                                         (if auto then "Stop Adding" else "Add Ridge")
                                         (with_addingAuto auto (with_splitMode true t)))
                       (logged "area.measure.disable.temporary" NoArg w) in
           if auto then logged "area.measure.ridge.start" NoArg w1
           else after_ridge_stop (logged "area.measure.ridge.stop" NoArg w1)).
Proof.
  unfold addRidge_action. do 2 mstep.
  change (splitMode (this (logged _ _ w))) with (splitMode (this w)).
  assert (Hset : forall k : unit -> M unit,
    ((if negb (splitMode (this w))
      then modify (with_splitMode true) ;; updateSplitButtons else skip) ≫= k)
      (logged "area.measure.disable.temporary" NoArg w)
    = k tt (on_this (with_splitMode true)
              (logged "area.measure.disable.temporary" NoArg w))).
  { intros k. destruct (splitMode (this w)) eqn:Hsm; cbn [negb].
    - mstep. f_equal. symmetry. apply on_this_id.
      now apply with_splitMode_same.
    - do 2 mstep. reflexivity. }
  rewrite Hset. do 2 mstep. clear Hset.
  destruct w as [t st fd]. destruct t as [? ? ? ? ? ? ? ? ? ? ? ? auto].
  cbn [this on_this logged log_fired addingAuto with_addingAuto with_splitMode].
  destruct auto; cbn [negb]; mrun; reflexivity.
Qed.

Lemma show_spec w :
  show w = Ok tt (if visible (this w) then w
                  else on_this (fun t => with_display "block" (with_visible true t)) w).
Proof.
  unfold show. mstep. destruct (visible (this w)); cbn [negb]; [reflexivity|].
  mrun. reflexivity.
Qed.

Lemma hide_spec n w :
  hide (fire (S n)) w
  = Ok tt (if visible (this w)
           then logged "area.measure.split.cancel" NoArg
                  (logged "area.measure.ridge.stop" NoArg
                     (on_this (fun t =>
                        with_planarityLabel ""
                          (with_splitResultLabel ""
                             (with_ridgeToggleBtn "Start Ridges"
                                (with_splitMode false
                                   (with_display "none" (with_visible false t)))))) w))
           else w).
Proof.
  unfold hide. mstep. destruct (visible (this w)); [|reflexivity].
  do 3 mstep.
  cbn [this on_this splitMode with_display with_visible].
  destruct (splitMode (this w)) eqn:Hsm; mrun.
  - rewrite after_ridge_stop_idle, after_split_cancel_idle by reflexivity.
    reflexivity.
  - rewrite after_ridge_stop_idle, after_split_cancel_idle by (simpl; exact Hsm).
    destruct w as [t st fd]. destruct t. cbn in Hsm. subst. reflexivity.
Qed.

Lemma toggle_spec n w :
  toggle (fire (S n)) w = if visible (this w) then hide (fire (S n)) w else show w.
Proof. unfold toggle. mstep. now destruct (visible (this w)). Qed.

(** ** Events arriving from the bus *)

Lemma deliver_S n name arg :
  deliver (S n) name arg = call_subscribers (subscriptions (fire n)) name arg.
Proof. reflexivity. Qed.

Lemma deliver_updated n l w :
  deliver (S n) "area.measure.updated" (Snapshot l) w
  = Ok tt (on_this (with_lastData (Some l)) (on_this (update_panel l (store w l)) w)).
Proof.
  rewrite deliver_S. cbn [subscriptions call_subscribers]. eval_names.
  erewrite bind_Ok.
  2:{ unfold on_updated_render. erewrite bind_Ok by reflexivity. apply update_spec. }
  reflexivity.
Qed.

Lemma deliver_updated_ill_typed n arg w :
  (forall l, arg <> Snapshot l) ->
  deliver (S n) "area.measure.updated" arg w = Throw TypeError.
Proof.
  intros Harg. rewrite deliver_S. cbn [subscriptions call_subscribers]. eval_names.
  apply bind_Throw. destruct arg; try reflexivity. now destruct (Harg l).
Qed.

Lemma deliver_show n arg w : deliver (S n) "area.measure.show" arg w = show w.
Proof.
  rewrite deliver_S. cbn [subscriptions call_subscribers]. eval_names.
  rewrite skip_l. erewrite bind_Ok by apply show_spec.
  rewrite skip_l. erewrite bind_Ok by apply show_spec.
  rewrite show_spec. destruct (visible (this w)) eqn:Hv; [now rewrite Hv|reflexivity].
Qed.

Lemma deliver_hide n arg w :
  deliver (S (S n)) "area.measure.hide" arg w = hide (fire (S n)) w.
Proof.
  rewrite deliver_S. cbn [subscriptions call_subscribers]. eval_names.
  rewrite <- (bind_skip_r (hide (fire (S n))) w). reflexivity.
Qed.

(** ** Pointer input on the buttons *)

Lemma run_listeners_bindBtn action ch w :
  run_listeners (bindBtn action) ch w = action w.
Proof.
  rewrite <- (bind_skip_r action w). now destruct ch.
Qed.

Lemma run_listeners_pcui action ch w :
  run_listeners [ (PcuiClick, action) ] ch w
  = if Channel_eqb PcuiClick ch then action w else Ok tt w.
Proof.
  destruct ch; cbn [Channel_eqb]; try reflexivity.
  rewrite <- (bind_skip_r action w). reflexivity.
Qed.

Lemma run_listeners_row action ch w :
  run_listeners [ (PcuiClick, action); (DomClick, action); (DomPointerDown, skip) ] ch w
  = if is_click ch then action w else Ok tt w.
Proof.
  destruct ch; cbn [is_click]; try reflexivity;
    rewrite <- (bind_skip_r action w); reflexivity.
Qed.

(** ** What a computation adds to the log *)

Lemma fired_logged name arg w :
  fired (logged name arg w)
  = (fired w ++ [ {| ev_name := name; ev_arg := arg; ev_at := this w |} ])%list.
Proof. reflexivity. Qed.

Lemma fired_on_this f w : fired (on_this f w) = fired w.
Proof. reflexivity. Qed.

Lemma fired_rerendered w : fired (rerendered w) = fired w.
Proof. unfold rerendered. now destruct (lastData (this w)). Qed.

Lemma fired_after_ridge_stop w : fired (after_ridge_stop w) = fired w.
Proof.
  unfold after_ridge_stop. destruct (splitMode (this w)); [|reflexivity].
  now rewrite fired_rerendered.
Qed.

Lemma fired_after_split_cancel w : fired (after_split_cancel w) = fired w.
Proof.
  unfold after_split_cancel. destruct (splitMode (this w)); [|reflexivity].
  now rewrite fired_rerendered.
Qed.

Lemma fired_since_app w w' new :
  fired w' = (fired w ++ new)%list -> fired_since w w' = new.
Proof. intros H. unfold fired_since. rewrite H. apply drop_app_length. Qed.

Lemma fired_since_same w w' : fired w' = fired w -> fired_since w w' = [].
Proof. intros H. apply fired_since_app. now rewrite app_nil_r. Qed.

Lemma dispatch_spec n b ch w :
  dispatch (S n) b ch w
  = match b with
    | ClearBtn => clear_action (fire (S n)) w
    | CloseBtn => close_action (fire (S n)) w
    | ExitBtn => exit_action (fire (S n)) w
    | RidgeToggleBtn =>
        if Channel_eqb PcuiClick ch then ridgeToggle_action (fire (S n)) w else Ok tt w
    | AddRidgeBtn =>
        if Channel_eqb PcuiClick ch then addRidge_action (fire (S n)) w else Ok tt w
    | UndoRidgeBtn =>
        if Channel_eqb PcuiClick ch then undoRidge_action (fire (S n)) w else Ok tt w
    | ClearRidgesBtn =>
        if Channel_eqb PcuiClick ch then clearRidges_action (fire (S n)) w else Ok tt w
    | RedoBtn idx => if is_click ch then doRedo (fire (S n)) idx w else Ok tt w
    | PickBtn idx => if is_click ch then doPick (fire (S n)) idx w else Ok tt w
    end.
Proof.
  unfold dispatch. destruct b; cbn [listeners];
    first [ apply run_listeners_bindBtn
          | apply run_listeners_pcui
          | apply run_listeners_row ].
Qed.

Ltac one_log :=
  erewrite fired_since_app
    by (rewrite ?fired_rerendered, ?fired_after_ridge_stop, ?fired_logged,
          ?fired_on_this, ?fired_logged, <- ?app_assoc; reflexivity).

(** ** Comparing with the planarity threshold *)

Lemma SFcompare_antisym a b :
  SFcompare b a = option_map CompOpp (SFcompare a b).
Proof.
  destruct a as [sa|sa| |sa ma ea], b as [sb|sb| |sb mb eb]; cbn;
    try reflexivity;
    try (destruct sa; reflexivity); try (destruct sb; reflexivity);
    try (destruct sa, sb; reflexivity).
  f_equal. rewrite (Z.compare_antisym ea eb).
  rewrite !Pos.compare_cont_spec. cbn [Pos.switch_Eq].
  rewrite (Pos.compare_antisym ma mb).
  destruct sa, sb; cbn; try reflexivity;
    destruct (ea ?= eb)%Z; cbn; try reflexivity;
    destruct (ma ?= mb)%positive; reflexivity.
Qed.

(** [x <= y] rules out [y < x], also for infinities and NaN. *)
Lemma leb_not_ltb (x y : float) : (x <=? y)%float = true -> (y <? x)%float = false.
Proof.
  rewrite leb_spec, ltb_spec. unfold SFleb, SFltb.
  rewrite (SFcompare_antisym (Prim2SF x) (Prim2SF y)).
  destruct (SFcompare (Prim2SF x) (Prim2SF y)) as [[]|]; cbn; congruence.
Qed.

(** ** Only produced names are fired *)

Lemma fires_produced_only_refl w : fires_produced_only w w.
Proof. exists []. split; [now rewrite app_nil_r|constructor]. Qed.

Lemma fires_produced_only_trans w1 w2 w3 :
  fires_produced_only w1 w2 -> fires_produced_only w2 w3 -> fires_produced_only w1 w3.
Proof.
  intros (new1 & H1 & F1) (new2 & H2 & F2). exists (new1 ++ new2)%list. split.
  - now rewrite H2, H1, app_assoc.
  - now apply Forall_app.
Qed.

Lemma fires_produced_only_same w w' : fired w' = fired w -> fires_produced_only w w'.
Proof. intros H. exists []. split; [now rewrite app_nil_r|constructor]. Qed.

Lemma fires_produced_only_logged w w' name arg :
  name ∈ produced_names ->
  fires_produced_only w w' -> fires_produced_only w (logged name arg w').
Proof.
  intros Hn H. eapply fires_produced_only_trans; [exact H|].
  exists [ {| ev_name := name; ev_arg := arg; ev_at := this w' |} ].
  split; [apply fired_logged|]. constructor; [exact Hn|constructor].
Qed.

Lemma fires_produced_only_quiet w w' w'' :
  fired w'' = fired w' -> fires_produced_only w w' -> fires_produced_only w w''.
Proof.
  intros Hq H. eapply fires_produced_only_trans; [exact H|].
  now apply fires_produced_only_same.
Qed.

Ltac produced :=
  repeat first
    [ apply fires_produced_only_refl
    | apply fires_produced_only_logged; [unfold produced_names; compute_done|]
    | eapply fires_produced_only_quiet; [apply fired_rerendered|]
    | eapply fires_produced_only_quiet; [apply fired_after_ridge_stop|]
    | eapply fires_produced_only_quiet; [apply fired_after_split_cancel|]
    | eapply fires_produced_only_quiet; [apply fired_on_this|] ].

Lemma hide_fires_produced n w :
  exists w', hide (fire (S n)) w = Ok tt w' /\ fires_produced_only w w'.
Proof.
  rewrite hide_spec. eexists. split; [reflexivity|].
  destruct (visible (this w)); produced.
Qed.

Lemma show_fires_produced w :
  exists w', show w = Ok tt w' /\ fires_produced_only w w'.
Proof.
  rewrite show_spec. eexists. split; [reflexivity|].
  destruct (visible (this w)); produced.
Qed.

Lemma dispatch_fires_produced n b ch w :
  exists w', dispatch (S n) b ch w = Ok tt w' /\ fires_produced_only w w'.
Proof.
  rewrite dispatch_spec. destruct b.
  - rewrite clear_action_spec. eexists. split; [reflexivity|]. produced.
  - rewrite close_action_spec. eexists. split; [reflexivity|]. produced.
  - rewrite exit_action_spec. eexists. split; [reflexivity|]. produced.
  - destruct (Channel_eqb PcuiClick ch).
    + rewrite ridgeToggle_action_spec. eexists. split; [reflexivity|].
      cbv zeta. destruct (negb (splitMode (this w))); produced.
    + exists w. split; [reflexivity|]. produced.
  - destruct (Channel_eqb PcuiClick ch).
    + rewrite addRidge_action_spec. eexists. split; [reflexivity|].
      cbv zeta. destruct (negb (addingAuto (this w))); produced.
    + exists w. split; [reflexivity|]. produced.
  - destruct (Channel_eqb PcuiClick ch).
    + rewrite undoRidge_action_spec. eexists. split; [reflexivity|]. produced.
    + exists w. split; [reflexivity|]. produced.
  - destruct (Channel_eqb PcuiClick ch).
    + rewrite clearRidges_action_spec. eexists. split; [reflexivity|]. produced.
    + exists w. split; [reflexivity|]. produced.
  - destruct (is_click ch).
    + rewrite doRedo_spec. eexists. split; [reflexivity|]. produced.
    + exists w. split; [reflexivity|]. produced.
  - destruct (is_click ch).
    + rewrite doPick_spec. eexists. split; [reflexivity|].
      destruct (splitMode (this w)); produced.
    + exists w. split; [reflexivity|]. produced.
Qed.

(** An event from the bus, by its name. *)
Lemma consumed_names_cases name :
  name ∈ consumed_names ->
  name = "area.measure.updated" \/ name = "area.measure.show"
  \/ name = "area.measure.hide" \/ name = "area.measure.split.cancel"
  \/ name = "area.measure.ridge.stop".
Proof.
  unfold consumed_names. rewrite !elem_of_cons, elem_of_nil. tauto.
Qed.

Lemma deliver_fires_produced n name arg w :
  well_typed (Bus name arg) = true ->
  exists w', deliver (S (S n)) name arg w = Ok tt w' /\ fires_produced_only w w'.
Proof.
  intros Hty. destruct (decide (name ∈ consumed_names)) as [Hin|Hout].
  - apply consumed_names_cases in Hin as [->|[->|[->|[->| ->]]]].
    + cbn in Hty. destruct arg as [| |l]; try discriminate.
      rewrite deliver_updated. eexists. split; [reflexivity|]. produced.
    + rewrite deliver_show. apply show_fires_produced.
    + rewrite deliver_hide. apply hide_fires_produced.
    + rewrite deliver_split_cancel, on_split_cancel_spec.
      eexists. split; [reflexivity|]. produced.
    + rewrite deliver_ridge_stop, on_ridge_stop_spec.
      eexists. split; [reflexivity|]. produced.
  - rewrite deliver_unheard by exact Hout. exists w. split; [reflexivity|]. produced.
Qed.

Lemma step_fires_produced n i w :
  well_typed i = true ->
  exists w', step (S (S n)) i w = Ok tt w' /\ fires_produced_only w w'.
Proof.
  intros Hty. destruct i as [name arg|b ch| | | |l d]; cbn [step].
  - now apply deliver_fires_produced.
  - apply dispatch_fires_produced.
  - rewrite toggle_spec. destruct (visible (this w)).
    + apply hide_fires_produced.
    + apply show_fires_produced.
  - apply show_fires_produced.
  - apply hide_fires_produced.
  - eexists. split; [reflexivity|]. now apply fires_produced_only_same.
Qed.

(** ** A hidden panel is not in split mode *)

Lemma settled_visible t : visible t = true -> settled t.
Proof. intros Hv. split; [congruence|auto]. Qed.

Lemma settled_calmer t t' : calmer t' t -> settled t -> settled t'.
Proof.
  intros (Hv & Hd & Hs) [H1 H2]. split.
  - rewrite Hv. intros Hf. specialize (H1 Hf).
    destruct (splitMode t') eqn:E; [|reflexivity]. specialize (Hs eq_refl). congruence.
  - rewrite Hv, Hd. exact H2.
Qed.

Lemma calmer_update_panel l d t : calmer (update_panel l d t) t.
Proof.
  repeat split. cbn. now destruct (splitAreas d).
Qed.

Lemma calmer_rerendered w : calmer (this (rerendered w)) (this w).
Proof.
  unfold rerendered. destruct (lastData (this w)).
  - apply calmer_update_panel.
  - repeat split. auto.
Qed.

Lemma calmer_after_ridge_stop w : calmer (this (after_ridge_stop w)) (this w).
Proof.
  unfold after_ridge_stop. destruct (splitMode (this w)) eqn:Hsm.
  - destruct (calmer_rerendered
                (on_this (fun t => with_ridgeToggleBtn "Start Ridges"
                                     (with_splitMode false t)) w))
      as (Hv & Hd & Hs).
    repeat split; [exact Hv|exact Hd|intros _; exact Hsm].
  - repeat split. auto.
Qed.

Lemma calmer_after_split_cancel w : calmer (this (after_split_cancel w)) (this w).
Proof.
  unfold after_split_cancel. destruct (splitMode (this w)) eqn:Hsm.
  - destruct (calmer_rerendered
                (on_this (fun t => with_splitResultLabel ""
                                     (with_ridgeToggleBtn "Start Ridges"
                                        (with_splitMode false t))) w))
      as (Hv & Hd & Hs).
    repeat split; [exact Hv|exact Hd|intros _; exact Hsm].
  - repeat split. auto.
Qed.

Lemma settled_after_show w w' : show w = Ok tt w' -> settled (this w) -> settled (this w').
Proof.
  rewrite show_spec. intros [= <-] Hs. destruct (visible (this w)) eqn:Hv.
  - exact Hs.
  - now apply settled_visible.
Qed.

Lemma hide_leaves_hidden n w w' :
  hide (fire (S n)) w = Ok tt w' ->
  visible (this w') = false
  /\ (visible (this w) = true -> splitMode (this w') = false /\ display (this w') = "none")
  /\ (visible (this w) = false -> w' = w).
Proof.
  rewrite hide_spec. intros [= <-]. destruct (visible (this w)) eqn:Hv.
  - repeat split. discriminate.
  - repeat split; try discriminate. exact Hv.
Qed.

Lemma settled_after_hide n w w' :
  hide (fire (S n)) w = Ok tt w' -> settled (this w) -> settled (this w').
Proof.
  intros Hh Hs. destruct (hide_leaves_hidden n w w' Hh) as (Hv' & Hwas & Hnot).
  destruct (visible (this w)) eqn:Hv.
  - destruct (Hwas eq_refl) as [Hsm Hd]. split; [auto|]. rewrite Hd. discriminate.
  - now rewrite (Hnot eq_refl).
Qed.

Lemma visible_rerendered w : visible (this (rerendered w)) = visible (this w).
Proof. apply calmer_rerendered. Qed.

Lemma visible_after_ridge_stop w : visible (this (after_ridge_stop w)) = visible (this w).
Proof. apply calmer_after_ridge_stop. Qed.

Lemma dispatch_keeps_visible n b ch w w' :
  dispatch (S n) b ch w = Ok tt w' -> visible (this w') = visible (this w).
Proof.
  rewrite dispatch_spec. destruct b.
  - rewrite clear_action_spec. now intros [= <-].
  - rewrite close_action_spec. now intros [= <-].
  - rewrite exit_action_spec. now intros [= <-].
  - destruct (Channel_eqb PcuiClick ch); [|now intros [= <-]].
    rewrite ridgeToggle_action_spec. intros [= <-]. cbv zeta.
    now rewrite visible_rerendered.
  - destruct (Channel_eqb PcuiClick ch); [|now intros [= <-]].
    rewrite addRidge_action_spec. intros [= <-]. cbv zeta.
    destruct (negb (addingAuto (this w))); [reflexivity|].
    now rewrite visible_after_ridge_stop.
  - destruct (Channel_eqb PcuiClick ch); [|now intros [= <-]].
    rewrite undoRidge_action_spec. now intros [= <-].
  - destruct (Channel_eqb PcuiClick ch); [|now intros [= <-]].
    rewrite clearRidges_action_spec. now intros [= <-].
  - destruct (is_click ch); [|now intros [= <-]].
    rewrite doRedo_spec. now intros [= <-].
  - destruct (is_click ch); [|now intros [= <-]].
    rewrite doPick_spec. intros [= <-]. now destruct (splitMode (this w)).
Qed.

Lemma step_settled n i w w' :
  deliverable i w -> step (S (S n)) i w = Ok tt w' ->
  settled (this w) -> settled (this w').
Proof.
  intros Hdel Hstep Hs. destruct i as [name arg|b ch| | | |l d]; cbn [step] in Hstep.
  - destruct (decide (name ∈ consumed_names)) as [Hin|Hout].
    + apply consumed_names_cases in Hin as [->|[->|[->|[->| ->]]]].
      * destruct arg as [| |l];
          try (rewrite deliver_updated_ill_typed in Hstep by discriminate; discriminate).
        rewrite deliver_updated in Hstep. injection Hstep as <-.
        eapply settled_calmer; [|exact Hs]. apply calmer_update_panel.
      * rewrite deliver_show in Hstep. eapply settled_after_show; eassumption.
      * rewrite deliver_hide in Hstep. eapply settled_after_hide; eassumption.
      * rewrite deliver_split_cancel, on_split_cancel_spec in Hstep.
        injection Hstep as <-.
        eapply settled_calmer; [apply calmer_after_split_cancel|exact Hs].
      * rewrite deliver_ridge_stop, on_ridge_stop_spec in Hstep.
        injection Hstep as <-.
        eapply settled_calmer; [apply calmer_after_ridge_stop|exact Hs].
    + rewrite deliver_unheard in Hstep by exact Hout. now injection Hstep as <-.
  - apply settled_visible.
    rewrite (dispatch_keeps_visible _ _ _ _ _ Hstep).
    apply Hs. exact Hdel.
  - rewrite toggle_spec in Hstep. destruct (visible (this w)).
    + eapply settled_after_hide; eassumption.
    + eapply settled_after_show; eassumption.
  - eapply settled_after_show; eassumption.
  - eapply settled_after_hide; eassumption.
  - now injection Hstep as <-.
Qed.

Lemma reachable_settled w : reachable w -> settled (this w).
Proof.
  induction 1 as [st|n i w w' _ IH Hdel Hstep].
  - split; [reflexivity|discriminate].
  - eapply step_settled; eassumption.
Qed.

(** In a reachable world that is hidden, a stop or cancel from the bus finds
    nothing to reset. *)
Lemma hidden_panel_ignores_stop n arg w :
  reachable w -> visible (this w) = false ->
  step (S n) (Bus "area.measure.ridge.stop" arg) w = Ok tt w
  /\ step (S n) (Bus "area.measure.split.cancel" arg) w = Ok tt w.
Proof.
  intros Hr Hv. pose proof (proj1 (reachable_settled w Hr) Hv) as Hsm.
  cbn [step]. split.
  - rewrite deliver_ridge_stop, on_ridge_stop_spec. now rewrite after_ridge_stop_idle.
  - rewrite deliver_split_cancel, on_split_cancel_spec.
    now rewrite after_split_cancel_idle.
Qed.

(** * The claims of the specification *)

(** C1.  A click on the Pick button of point [idx] fires
    [area.measure.split.select] with argument [idx] exactly when [splitMode]
    is set at the time of the click, and then after
    [area.measure.disable.temporary]; with [splitMode] unset the click fires
    nothing and changes nothing, whatever the snapshots in the store. *)
Theorem pick_forwarded_iff_splitMode n idx ch w :
  is_click ch = true ->
  exists w',
    dispatch (S n) (PickBtn idx) ch w = Ok tt w'
    /\ map call_of (fired_since w w')
       = (if splitMode (this w)
          then [ ("area.measure.disable.temporary", NoArg);
                 ("area.measure.split.select", Index idx) ]
          else [])
    /\ ((exists e, e ∈ fired_since w w'
                   /\ call_of e = ("area.measure.split.select", Index idx))
        <-> splitMode (this w) = true)
    /\ (splitMode (this w) = false -> w' = w).
Proof.
  intros Hch. rewrite dispatch_spec, Hch, doPick_spec.
  destruct (splitMode (this w)) eqn:Hsm.
  - eexists. split; [reflexivity|].
    erewrite fired_since_app by (rewrite !fired_logged, <- app_assoc; reflexivity).
    repeat split; try discriminate.
    exists {| ev_name := "area.measure.split.select"; ev_arg := Index idx;
              ev_at := this w |}.
    split; [|reflexivity]. cbn. set_solver.
  - exists w. split; [reflexivity|].
    rewrite fired_since_same by reflexivity.
    repeat split; try discriminate.
    intros (e & He & _). set_solver.
Qed.

(** C2.  A listener of the Clear button fires, in this order and nothing
    else, [area.measure.disable.temporary], [area.measure.ridge.stop],
    [area.measure.split.cancel] and [area.measure.clear]; when
    [area.measure.ridge.stop] is fired [splitMode] is already unset and the
    ridge toggle already reads 'Start Ridges', and nothing else of the panel
    has changed. *)
Theorem clear_fires_four_events_in_order n ch w :
  exists w' e1 e2 e3 e4,
    dispatch (S n) ClearBtn ch w = Ok tt w'
    /\ fired_since w w' = [e1; e2; e3; e4]
    /\ map call_of [e1; e2; e3; e4]
       = [ ("area.measure.disable.temporary", NoArg);
           ("area.measure.ridge.stop", NoArg);
           ("area.measure.split.cancel", NoArg);
           ("area.measure.clear", NoArg) ]
    /\ ev_at e1 = this w
    /\ ev_at e2 = with_ridgeToggleBtn "Start Ridges" (with_splitMode false (this w))
    /\ splitMode (ev_at e2) = false
    /\ ridgeToggleBtn (ev_at e2) = "Start Ridges"
    /\ this w' = ev_at e2.
Proof.
  rewrite dispatch_spec, clear_action_spec.
  do 5 eexists. split; [reflexivity|].
  split.
  { apply fired_since_app.
    rewrite !fired_logged, fired_on_this, fired_logged, <- !app_assoc.
    reflexivity. }
  repeat split.
Qed.

(** C10.  Whatever a listener of a button fires starts with
    [area.measure.disable.temporary]; and a click does fire it, on every
    button, the Pick buttons being subject to [splitMode]. *)
Theorem clicks_fire_disable_temporary_first n b ch w :
  exists w',
    dispatch (S n) b ch w = Ok tt w'
    /\ (fired_since w w' = []
        \/ head (map call_of (fired_since w w'))
           = Some ("area.measure.disable.temporary", NoArg))
    /\ (ch = PcuiClick ->
        match b with PickBtn _ => splitMode (this w) = true | _ => True end ->
        head (map call_of (fired_since w w'))
        = Some ("area.measure.disable.temporary", NoArg)).
Proof.
  rewrite dispatch_spec.
  destruct b.
  - rewrite clear_action_spec. eexists. split; [reflexivity|].
    one_log. split; [right|]; reflexivity.
  - rewrite close_action_spec. eexists. split; [reflexivity|].
    one_log. split; [right|]; reflexivity.
  - rewrite exit_action_spec. eexists. split; [reflexivity|].
    one_log. split; [right|]; reflexivity.
  - destruct ch; cbn [Channel_eqb].
    + rewrite ridgeToggle_action_spec. eexists. split; [reflexivity|].
      cbv zeta. one_log. split; [right|]; reflexivity.
    + exists w. split; [reflexivity|]. rewrite fired_since_same by reflexivity.
      split; [now left|discriminate].
    + exists w. split; [reflexivity|]. rewrite fired_since_same by reflexivity.
      split; [now left|discriminate].
  - destruct ch; cbn [Channel_eqb].
    + rewrite addRidge_action_spec. eexists. split; [reflexivity|].
      cbv zeta. destruct (negb (addingAuto (this w)));
        one_log; (split; [right|]; reflexivity).
    + exists w. split; [reflexivity|]. rewrite fired_since_same by reflexivity.
      split; [now left|discriminate].
    + exists w. split; [reflexivity|]. rewrite fired_since_same by reflexivity.
      split; [now left|discriminate].
  - destruct ch; cbn [Channel_eqb].
    + rewrite undoRidge_action_spec. eexists. split; [reflexivity|].
      one_log. split; [right|]; reflexivity.
    + exists w. split; [reflexivity|]. rewrite fired_since_same by reflexivity.
      split; [now left|discriminate].
    + exists w. split; [reflexivity|]. rewrite fired_since_same by reflexivity.
      split; [now left|discriminate].
  - destruct ch; cbn [Channel_eqb].
    + rewrite clearRidges_action_spec. eexists. split; [reflexivity|].
      one_log. split; [right|]; reflexivity.
    + exists w. split; [reflexivity|]. rewrite fired_since_same by reflexivity.
      split; [now left|discriminate].
    + exists w. split; [reflexivity|]. rewrite fired_since_same by reflexivity.
      split; [now left|discriminate].
  - destruct (is_click ch) eqn:Hch.
    + rewrite doRedo_spec. eexists. split; [reflexivity|].
      one_log. split; [right|]; reflexivity.
    + exists w. split; [reflexivity|]. rewrite fired_since_same by reflexivity.
      split; [now left|]. intros ->. discriminate.
  - destruct (is_click ch) eqn:Hch.
    + rewrite doPick_spec. destruct (splitMode (this w)) eqn:Hsm.
      * eexists. split; [reflexivity|]. one_log. split; [right|]; reflexivity.
      * exists w. split; [reflexivity|]. rewrite fired_since_same by reflexivity.
        split; [now left|]. intros _ H. discriminate.
    + exists w. split; [reflexivity|]. rewrite fired_since_same by reflexivity.
      split; [now left|]. intros ->. discriminate.
Qed.

(** C4.  The handlers the constructor registers are registered under the
    five names [area.measure.updated], [area.measure.show],
    [area.measure.hide], [area.measure.split.cancel] and
    [area.measure.ridge.stop] and under no other name; an event of any other
    name reaches no handler of the panel. *)
Theorem subscribes_to_five_names ef :
  map fst (subscriptions ef)
  = [ "area.measure.updated"; "area.measure.show"; "area.measure.hide";
      "area.measure.show"; "area.measure.updated";
      "area.measure.split.cancel"; "area.measure.ridge.stop" ]
  /\ (forall name, name ∈ map fst (subscriptions ef) <-> name ∈ consumed_names)
  /\ (forall n name arg w,
        name ∉ consumed_names -> deliver (S n) name arg w = Ok tt w).
Proof.
  split; [reflexivity|]. split.
  - intros name. cbn [subscriptions map fst]. unfold consumed_names.
    rewrite !elem_of_cons, !elem_of_nil. tauto.
  - intros n name arg w. apply deliver_unheard.
Qed.

(** C7.  [update(d)] returns, and leaves every snapshot object of the store
    as it was, [d] and all its fields included; it fires nothing either. *)
Theorem update_leaves_snapshot_unchanged l w :
  exists w',
    update l w = Ok tt w'
    /\ store w' = store w
    /\ store w' l = store w l
    /\ fired w' = fired w.
Proof.
  rewrite update_spec. eexists. repeat split.
Qed.

(** C8.  When the snapshot carries split areas, [update] writes
    'Split areas: a + b = total' (three decimals each) to the split result
    label and unsets [splitMode]; the text of the ridge toggle stays as it
    was. *)
Theorem update_split_result_leaves_split_mode l w sa :
  splitAreas (store w l) = Some sa ->
  exists w',
    update l w = Ok tt w'
    /\ splitResultLabel (this w')
       = "Split areas: " +:+ toFixed (sa_a sa) 3 +:+ " + " +:+ toFixed (sa_b sa) 3
           +:+ " = " +:+ toFixed (sa_total sa) 3
    /\ splitMode (this w') = false
    /\ ridgeToggleBtn (this w') = ridgeToggleBtn (this w).
Proof.
  intros Hsa. rewrite update_spec. eexists. split; [reflexivity|].
  cbn [this on_this update_panel splitResultLabel splitMode ridgeToggleBtn].
  unfold split_text. rewrite Hsa. repeat split.
Qed.

(** C9.  [update] sets the planarity label to 'Non-planar: max .., rms ..'
    exactly when the snapshot has non-planarity metrics whose max exceeds
    0.2, to 'Planarity OK (max ..)' when it has metrics whose max is at most
    0.2, and to the empty text when it has none. *)
Theorem planarity_label_by_threshold l w :
  exists w',
    update l w = Ok tt w'
    /\ (forall np, nonPlanarity (store w l) = Some np ->
                   (planarity_threshold <? np_max np)%float = true ->
                   planarityLabel (this w')
                   = "Non-planar: max " +:+ toFixed (np_max np) 3
                       +:+ ", rms " +:+ toFixed (np_rms np) 3)
    /\ (forall np, nonPlanarity (store w l) = Some np ->
                   (np_max np <=? planarity_threshold)%float = true ->
                   planarityLabel (this w')
                   = "Planarity OK (max " +:+ toFixed (np_max np) 3 +:+ ")")
    /\ (nonPlanarity (store w l) = None -> planarityLabel (this w') = "")
    /\ ((exists rest, planarityLabel (this w') = "Non-planar: max " +:+ rest) ->
        exists np, nonPlanarity (store w l) = Some np
                   /\ (planarity_threshold <? np_max np)%float = true).
Proof.
  rewrite update_spec. eexists. split; [reflexivity|].
  cbn [this on_this update_panel planarityLabel]. unfold planarity_text.
  repeat split.
  - intros np -> ->. reflexivity.
  - intros np -> Hle. now rewrite (leb_not_ltb _ _ Hle).
  - now intros ->.
  - intros [rest Hlabel].
    destruct (nonPlanarity (store w l)) as [np|]; [|discriminate].
    exists np. split; [reflexivity|].
    destruct (planarity_threshold <? np_max np)%float; [reflexivity|discriminate].
Qed.

(** C6.  After an [area.measure.updated] event carrying snapshot [l], the
    panel's [lastData] is [l].  A click on the ridge toggle, and a split
    cancelled while in split mode, end with [update] run on [lastData]
    against the store as it is; without a cached snapshot the toggle leaves
    the rendered widgets alone.  What [update] renders is a function of the
    snapshot it is given and of [splitMode]: nothing the widgets held before
    goes into it, and [lastData] is the only reference to a snapshot the
    panel keeps. *)
Theorem caches_latest_snapshot_and_rerenders_from_it :
  (forall n l w,
      exists w', step (S n) (Bus "area.measure.updated" (Snapshot l)) w = Ok tt w'
                 /\ lastData (this w') = Some l
                 /\ store w' = store w)
  /\ (forall n w l,
        lastData (this w) = Some l ->
        exists w1 w', step (S n) (Ui RidgeToggleBtn PcuiClick) w = Ok tt w'
                      /\ update l w1 = Ok tt w'
                      /\ store w1 = store w
                      /\ lastData (this w') = Some l)
  /\ (forall n w,
        lastData (this w) = None ->
        exists w', step (S n) (Ui RidgeToggleBtn PcuiClick) w = Ok tt w'
                   /\ rendered_view (this w') = rendered_view (this w))
  /\ (forall n arg w l,
        lastData (this w) = Some l -> splitMode (this w) = true ->
        exists w1 w', step (S n) (Bus "area.measure.split.cancel" arg) w = Ok tt w'
                      /\ update l w1 = Ok tt w'
                      /\ store w1 = store w
                      /\ lastData (this w') = Some l)
  /\ (forall l w1 w2,
        store w1 l = store w2 l -> splitMode (this w1) = splitMode (this w2) ->
        exists w1' w2', update l w1 = Ok tt w1' /\ update l w2 = Ok tt w2'
                        /\ rendered_view (this w1') = rendered_view (this w2')).
Proof.
  repeat split.
  - intros n l w. cbn [step]. rewrite deliver_updated. eexists. repeat split.
  - intros n w l Hld. cbn [step]. rewrite dispatch_spec. cbn [Channel_eqb].
    rewrite ridgeToggle_action_spec. cbv zeta. unfold rerendered.
    cbn [this on_this logged log_fired lastData with_ridgeToggleBtn with_splitMode].
    rewrite Hld. eexists _, _. split; [reflexivity|].
    split; [apply update_spec|]. repeat split.
  - intros n w Hld. cbn [step]. rewrite dispatch_spec. cbn [Channel_eqb].
    rewrite ridgeToggle_action_spec. cbv zeta. unfold rerendered.
    cbn [this on_this logged log_fired lastData with_ridgeToggleBtn with_splitMode].
    rewrite Hld. eexists. split; reflexivity.
  - intros n arg w l Hld Hsm. cbn [step].
    rewrite deliver_split_cancel, on_split_cancel_spec.
    unfold after_split_cancel, rerendered. rewrite Hsm.
    cbn [this on_this lastData with_splitResultLabel with_ridgeToggleBtn with_splitMode].
    rewrite Hld. eexists _, _. split; [reflexivity|].
    split; [apply update_spec|]. repeat split.
  - intros l w1 w2 Hd Hsm. rewrite !update_spec. eexists _, _.
    split; [reflexivity|]. split; [reflexivity|].
    unfold rendered_view. cbn [this on_this update_panel pointsContainer
      edgesContainer ridgesContainer areaLabel planarityLabel splitResultLabel].
    now rewrite Hd, Hsm.
Qed.

(** C3.  Every run of the panel, over any inputs (events from the bus,
    pointer input on any button or point row, the public methods) returns,
    and every event it fired on the way has one of the eleven produced
    names. *)
Theorem fires_only_produced_names n inputs w :
  forallb well_typed inputs = true ->
  exists w',
    run (S (S n)) inputs w = Ok tt w'
    /\ forall e, e ∈ fired_since w w' -> ev_name e ∈ produced_names.
Proof.
  intros Hty.
  enough (exists w', run (S (S n)) inputs w = Ok tt w' /\ fires_produced_only w w')
    as (w' & Hrun & new & Hnew & Hall).
  { exists w'. split; [exact Hrun|]. intros e He.
    rewrite (fired_since_app _ _ _ Hnew) in He.
    rewrite Forall_forall in Hall. now apply Hall. }
  revert w Hty. induction inputs as [|i inputs IH]; intros w Hty.
  - exists w. split; [reflexivity|]. apply fires_produced_only_refl.
  - cbn [forallb] in Hty. apply andb_prop in Hty as [Hi Hrest].
    destruct (step_fires_produced n i w Hi) as (w1 & Hstep & H1).
    destruct (IH w1 Hrest) as (w' & Hrun & H2).
    exists w'. split.
    + cbn [run]. erewrite bind_Ok by exact Hstep. exact Hrun.
    + eapply fires_produced_only_trans; eassumption.
Qed.

(** C5.  Once [hide()] has run, by call or by an [area.measure.hide] event,
    on a panel that was visible or that is in a reachable state, the panel
    is hidden, and an [area.measure.ridge.stop] or
    [area.measure.split.cancel] event arriving then changes nothing: not the
    panel, not the store, and nothing is fired. *)
Theorem late_stop_ignored_after_hide n i w :
  i = Call_hide \/ (exists arg, i = Bus "area.measure.hide" arg) ->
  reachable w \/ visible (this w) = true ->
  exists w',
    step (S (S n)) i w = Ok tt w'
    /\ visible (this w') = false
    /\ forall m arg,
         step (S m) (Bus "area.measure.ridge.stop" arg) w' = Ok tt w'
         /\ step (S m) (Bus "area.measure.split.cancel" arg) w' = Ok tt w'.
Proof.
  intros Hi Hw.
  assert (Hstep : exists k, step (S (S n)) i w = hide (fire (S k)) w).
  { destruct Hi as [->|[arg ->]]; cbn [step].
    - now exists (S n).
    - exists n. apply deliver_hide. }
  destruct Hstep as [k Hstep].
  assert (Hex : exists w', step (S (S n)) i w = Ok tt w'
                           /\ visible (this w') = false /\ splitMode (this w') = false).
  { pose proof (hide_spec k w) as Hh. eexists. split; [rewrite Hstep; exact Hh|].
    destruct (hide_leaves_hidden k w _ Hh) as (Hv' & Hwas & Hnot).
    split; [exact Hv'|]. destruct (visible (this w)) eqn:Hv.
    - now apply Hwas.
    - destruct Hw as [Hr|Hvis]; [|discriminate].
      now apply (reachable_settled w Hr). }
  destruct Hex as (w' & Hs & Hv' & Hsm'). exists w'. repeat split; try assumption.
  - cbn [step]. rewrite deliver_ridge_stop, on_ridge_stop_spec.
    now rewrite after_ridge_stop_idle.
  - cbn [step]. rewrite deliver_split_cancel, on_split_cancel_spec.
    now rewrite after_split_cancel_idle.
Qed.

(** * Further properties of the panel *)

(** ** What [update] renders *)

Lemma length_mapi_from {A B} (f : A -> nat -> B) l i :
  length (mapi_from f l i) = length l.
Proof. revert i. induction l as [|a l IH]; intros i; cbn; [reflexivity|now rewrite IH]. Qed.

Lemma lookup_mapi_from {A B} (f : A -> nat -> B) l i k :
  mapi_from f l i !! k = (fun a => f a (i + k)) <$> (l !! k).
Proof.
  revert i k. induction l as [|a l IH]; intros i [|k]; cbn; try reflexivity.
  - now rewrite Nat.add_0_r.
  - rewrite IH. now rewrite Nat.add_succ_r.
Qed.

Lemma elem_of_used_indices d idx :
  idx ∈ used_indices d
  <-> exists r, r ∈ default [] (ridges d) /\ (idx = r_i r \/ idx = r_j r).
Proof.
  unfold used_indices. rewrite elem_of_list_to_set, list_elem_of_bind.
  split; intros (r & H1 & H2); exists r.
  - split; [exact H2|]. rewrite !elem_of_cons, elem_of_nil in H1. tauto.
  - split; [|exact H1]. rewrite !elem_of_cons, elem_of_nil. tauto.
Qed.

Lemma elem_of_selected_indices d idx :
  idx ∈ selected_indices d <-> idx ∈ default [] (splitSelection d).
Proof. unfold selected_indices. now rewrite elem_of_list_to_set. Qed.

(** X1.  [update] renders one row per point and one label per edge, in
    order: the row at position [k] carries index [k] (the index its Redo and
    Pick buttons forward), the label 'P(k+1): x, y, z' of the point at [k],
    and a Pick button exactly when the panel was in split mode when the
    rendering started; the label at position [k] of the edges is
    'L(k+1): length'. *)
Theorem update_rows_follow_points l w :
  exists w',
    update l w = Ok tt w'
    /\ length (pointsContainer (this w')) = length (points (store w l))
    /\ length (edgesContainer (this w')) = length (edges (store w l))
    /\ (forall k p,
          points (store w l) !! k = Some p ->
          exists row,
            pointsContainer (this w') !! k = Some row
            /\ row_idx row = k
            /\ row_has_pick row = splitMode (this w)
            /\ row_label row
               = "P" +:+ show_index (k + 1) +:+ ": " +:+ toFixed (v_x p) 3
                   +:+ ", " +:+ toFixed (v_y p) 3 +:+ ", " +:+ toFixed (v_z p) 3)
    /\ (forall k e,
          edges (store w l) !! k = Some e ->
          edgesContainer (this w') !! k
          = Some ("L" +:+ show_index (k + 1) +:+ ": " +:+ toFixed (e_length e) 3)).
Proof.
  rewrite update_spec. eexists. split; [reflexivity|].
  cbn [this on_this update_panel pointsContainer edgesContainer].
  rewrite !length_mapi_from. repeat split.
  - intros k p Hp. eexists. rewrite lookup_mapi_from, Hp. cbn [fmap option_fmap option_map].
    split; [reflexivity|]. repeat split.
  - intros k e He. rewrite lookup_mapi_from, He. reflexivity.
Qed.

(** X2.  The Pick button of a rendered row is yellow when its index is in
    the split selection, cyan when it is not selected but is an end of some
    ridge, and has no background otherwise; selection wins over ridge
    membership, and the text colour is black in all cases. *)
Theorem pick_colour_by_selection_then_ridge l w :
  exists w',
    update l w = Ok tt w'
    /\ forall k row,
         pointsContainer (this w') !! k = Some row ->
         (k ∈ default [] (splitSelection (store w l)) ->
          pick_background row = Some "#ffd400")
         /\ (k ∉ default [] (splitSelection (store w l)) ->
             (exists r, r ∈ default [] (ridges (store w l))
                        /\ (k = r_i r \/ k = r_j r)) ->
             pick_background row = Some "#00bcd4")
         /\ (k ∉ default [] (splitSelection (store w l)) ->
             (forall r, r ∈ default [] (ridges (store w l)) ->
                        k <> r_i r /\ k <> r_j r) ->
             pick_background row = None)
         /\ pick_color row = "#000".
Proof.
  rewrite update_spec. eexists. split; [reflexivity|].
  cbn [this on_this update_panel pointsContainer].
  intros k row Hrow. rewrite lookup_mapi_from in Hrow.
  destruct (points (store w l) !! k) as [p|]; [|discriminate].
  cbn in Hrow. injection Hrow as <-. cbn [pick_background pick_color point_row].
  repeat split.
  - intros Hsel. rewrite bool_decide_eq_true_2; [reflexivity|].
    now apply elem_of_selected_indices.
  - intros Hsel Hused. rewrite bool_decide_eq_false_2
      by (now rewrite elem_of_selected_indices).
    rewrite bool_decide_eq_true_2; [reflexivity|].
    now apply elem_of_used_indices.
  - intros Hsel Hunused. rewrite bool_decide_eq_false_2
      by (now rewrite elem_of_selected_indices).
    rewrite bool_decide_eq_false_2; [reflexivity|].
    rewrite elem_of_used_indices. intros (r & Hr & Hk).
    destruct (Hunused r Hr). tauto.
Qed.


Lemma elem_of_mapi_from {A B} (f : A -> nat -> B) l i b :
  b ∈ mapi_from f l i -> exists a k, b = f a k.
Proof.
  intros Hb. apply list_elem_of_lookup in Hb as [k Hk].
  rewrite lookup_mapi_from in Hk.
  destruct (l !! k) as [a|]; [|discriminate].
  injection Hk as <-. now exists a, (i + k).
Qed.

(** X4.  Without a split result, [update] leaves [splitMode] as it is and
    prompts by the selection: nothing outside split mode, 'Pick second
    point' naming the selected point when exactly one point is selected, and
    'Pick two points' for any other selection, an empty one and one of two
    or more points alike. *)
Theorem split_prompt_follows_selection l w :
  splitAreas (store w l) = None ->
  exists w',
    update l w = Ok tt w'
    /\ splitMode (this w') = splitMode (this w)
    /\ (splitMode (this w) = false -> splitResultLabel (this w') = "")
    /\ (splitMode (this w) = true ->
        forall s0, default [] (splitSelection (store w l)) = [s0] ->
                   splitResultLabel (this w')
                   = "Pick second point (selected P" +:+ show_index (s0 + 1) +:+ ")...")
    /\ (splitMode (this w) = true ->
        length (default [] (splitSelection (store w l))) <> 1 ->
        splitResultLabel (this w') = "Pick two points to split the polygon...").
Proof.
  intros Hnone. rewrite update_spec. eexists. split; [reflexivity|].
  cbn [this on_this update_panel splitMode splitResultLabel].
  unfold split_text. rewrite Hnone. repeat split.
  - now intros ->.
  - intros -> s0 ->. reflexivity.
  - intros -> Hlen.
    destruct (default [] (splitSelection (store w l))) as [|s0 [|s1 sel]];
      [reflexivity| |reflexivity].
    now destruct Hlen.
Qed.

(** X5.  Rendering the same snapshot again changes nothing, unless the
    first rendering was the one that left split mode: with no split result
    in the snapshot, or outside split mode, a second [update] is a no-op. *)
Theorem update_twice_is_update_once l w :
  splitAreas (store w l) = None \/ splitMode (this w) = false ->
  exists w', update l w = Ok tt w' /\ update l w' = Ok tt w'.
Proof.
  intros Hstable. rewrite update_spec. eexists. split; [reflexivity|].
  rewrite update_spec. f_equal.
  cbn [this store on_this]. unfold on_this. cbn [this store fired]. f_equal.
  unfold update_panel.
  cbn [visible splitMode lastData display pointsContainer edgesContainer
       ridgesContainer areaLabel planarityLabel splitResultLabel ridgeToggleBtn
       addRidgeBtn addingAuto].
  assert (Hsm : match splitAreas (store w l) with
                | Some _ => false
                | None => splitMode (this w)
                end = splitMode (this w)).
  { destruct Hstable as [-> | ->]; [reflexivity|].
    now destruct (splitAreas (store w l)). }
  rewrite Hsm. f_equal. now destruct (splitAreas (store w l)).
Qed.

(** X6.  When a split result arrives while the panel is in split mode, the
    rows are drawn before split mode is left: they all carry a Pick button
    although [splitMode] is then unset (so those buttons forward nothing),
    and only the next rendering drops them. *)
Theorem split_result_leaves_stale_pick_buttons l w sa :
  splitAreas (store w l) = Some sa -> splitMode (this w) = true ->
  exists w1 w2,
    update l w = Ok tt w1
    /\ splitMode (this w1) = false
    /\ (forall row, row ∈ pointsContainer (this w1) -> row_has_pick row = true)
    /\ update l w1 = Ok tt w2
    /\ (forall row, row ∈ pointsContainer (this w2) -> row_has_pick row = false).
Proof.
  intros Hsa Hsm. rewrite update_spec. eexists _, _. split; [reflexivity|].
  rewrite update_spec.
  cbn [this store on_this update_panel splitMode pointsContainer].
  rewrite Hsa, Hsm. repeat split.
  - intros row Hrow. apply elem_of_mapi_from in Hrow as (p & k & ->). reflexivity.
  - intros row Hrow. apply elem_of_mapi_from in Hrow as (p & k & ->).
    cbn [row_has_pick point_row this on_this update_panel splitMode].
    now rewrite Hsa.
Qed.

Ltac all_logs :=
  erewrite fired_since_app
    by (repeat (progress rewrite ?fired_rerendered, ?fired_after_ridge_stop,
                  ?fired_after_split_cancel, ?fired_on_this, ?fired_logged);
        rewrite <- ?app_assoc; reflexivity).

(** ** Showing and hiding *)

(** X7.  [hide()] on a visible panel hides it, leaves split mode, blanks the
    split result and planarity labels, resets the ridge toggle text, and
    then fires [area.measure.ridge.stop] and [area.measure.split.cancel],
    in this order and without [area.measure.disable.temporary]; the cached
    snapshot, the rendered rows and the Add Ridge button's state are kept.
    On a panel that is not visible it does nothing at all. *)
Theorem hide_resets_and_notifies n w :
  exists w',
    step (S n) Call_hide w = Ok tt w'
    /\ (visible (this w) = true ->
        this w' = with_planarityLabel ""
                    (with_splitResultLabel ""
                       (with_ridgeToggleBtn "Start Ridges"
                          (with_splitMode false
                             (with_display "none" (with_visible false (this w))))))
        /\ map call_of (fired_since w w')
           = [ ("area.measure.ridge.stop", NoArg);
               ("area.measure.split.cancel", NoArg) ]
        /\ store w' = store w
        /\ lastData (this w') = lastData (this w)
        /\ pointsContainer (this w') = pointsContainer (this w)
        /\ addingAuto (this w') = addingAuto (this w)
        /\ addRidgeBtn (this w') = addRidgeBtn (this w))
    /\ (visible (this w) = false -> w' = w).
Proof.
  cbn [step]. rewrite hide_spec. eexists. split; [reflexivity|].
  destruct (visible (this w)); split; try discriminate; intros _; [|reflexivity].
  one_log. repeat split.
Qed.

(** X8.  Two calls of [toggle()] bring the panel back to the visibility it
    had, but not to the state it had: whichever of the two calls hides
    leaves split mode and blanks the split and planarity labels, and fires
    [area.measure.ridge.stop] and [area.measure.split.cancel] once; the
    cached snapshot and the rendered rows stay. *)
Theorem toggle_twice_restores_visibility_only n w :
  exists w',
    run (S n) [ Call_toggle; Call_toggle ] w = Ok tt w'
    /\ visible (this w') = visible (this w)
    /\ display (this w') = (if visible (this w) then "block" else "none")
    /\ splitMode (this w') = false
    /\ ridgeToggleBtn (this w') = "Start Ridges"
    /\ splitResultLabel (this w') = ""
    /\ planarityLabel (this w') = ""
    /\ lastData (this w') = lastData (this w)
    /\ pointsContainer (this w') = pointsContainer (this w)
    /\ map call_of (fired_since w w')
       = [ ("area.measure.ridge.stop", NoArg);
           ("area.measure.split.cancel", NoArg) ].
Proof.
  cbn [run step]. destruct (visible (this w)) eqn:Hv.
  - erewrite bind_Ok by (rewrite toggle_spec, Hv, hide_spec, Hv; reflexivity).
    rewrite bind_skip_r, toggle_spec.
    cbn [this logged log_fired on_this visible with_planarityLabel
         with_splitResultLabel with_ridgeToggleBtn with_splitMode with_display
         with_visible].
    rewrite show_spec.
    cbn [this logged log_fired on_this visible with_planarityLabel
         with_splitResultLabel with_ridgeToggleBtn with_splitMode with_display
         with_visible].
    eexists. split; [reflexivity|]. one_log. repeat split.
  - erewrite bind_Ok by (rewrite toggle_spec, Hv, show_spec, Hv; reflexivity).
    rewrite bind_skip_r, toggle_spec.
    cbn [this on_this visible with_display with_visible].
    rewrite hide_spec.
    cbn [this on_this visible with_display with_visible].
    eexists. split; [reflexivity|]. one_log. repeat split.
Qed.

(** ** The ridge buttons *)

(** X15.  The first click on Add Ridge (auto-adding off) enters split mode
    and fires [area.measure.disable.temporary] and
    [area.measure.ridge.start]; its own text becomes 'Stop Adding'.  It does
    not re-render and does not touch the ridge toggle: the rows have no new
    Pick buttons and the toggle keeps its text. *)
Theorem add_ridge_starts_without_rerender n w :
  addingAuto (this w) = false ->
  exists w',
    step (S n) (Ui AddRidgeBtn PcuiClick) w = Ok tt w'
    /\ this w' = with_addRidgeBtn "Stop Adding"
                   (with_addingAuto true (with_splitMode true (this w)))
    /\ splitMode (this w') = true
    /\ ridgeToggleBtn (this w') = ridgeToggleBtn (this w)
    /\ rendered_view (this w') = rendered_view (this w)
    /\ store w' = store w
    /\ map call_of (fired_since w w')
       = [ ("area.measure.disable.temporary", NoArg);
           ("area.measure.ridge.start", NoArg) ].
Proof.
  intros Hauto. cbn [step]. rewrite dispatch_spec. cbn [Channel_eqb].
  rewrite addRidge_action_spec. cbv zeta. rewrite Hauto. cbn [negb].
  eexists. split; [reflexivity|]. one_log. repeat split.
Qed.

Lemma splitMode_rerendered_off w :
  splitMode (this w) = false -> splitMode (this (rerendered w)) = false.
Proof.
  intros Hoff. destruct (calmer_rerendered w) as (_ & _ & Hs).
  destruct (splitMode (this (rerendered w))); [|reflexivity].
  rewrite <- Hoff. symmetry. now apply Hs.
Qed.

Lemma ridgeToggleBtn_rerendered w :
  ridgeToggleBtn (this (rerendered w)) = ridgeToggleBtn (this w).
Proof. unfold rerendered. now destruct (lastData (this w)). Qed.

Lemma addingAuto_rerendered w : addingAuto (this (rerendered w)) = addingAuto (this w).
Proof. unfold rerendered. now destruct (lastData (this w)). Qed.

Lemma addRidgeBtn_rerendered w : addRidgeBtn (this (rerendered w)) = addRidgeBtn (this w).
Proof. unfold rerendered. now destruct (lastData (this w)). Qed.

Lemma store_rerendered w : store (rerendered w) = store w.
Proof. unfold rerendered. now destruct (lastData (this w)). Qed.

Lemma store_after_ridge_stop w : store (after_ridge_stop w) = store w.
Proof.
  unfold after_ridge_stop. destruct (splitMode (this w)); [|reflexivity].
  now rewrite store_rerendered.
Qed.

Lemma store_after_split_cancel w : store (after_split_cancel w) = store w.
Proof.
  unfold after_split_cancel. destruct (splitMode (this w)); [|reflexivity].
  now rewrite store_rerendered.
Qed.

(** X16.  The second click on Add Ridge (auto-adding on) fires
    [area.measure.disable.temporary] and [area.measure.ridge.stop], and the
    panel's own handler of that event then leaves split mode: afterwards
    [splitMode] is unset and the ridge toggle reads 'Start Ridges', whether
    or not split mode had been entered through the toggle, and the rows are
    rendered again from the cached snapshot, without Pick buttons. *)
Theorem add_ridge_stop_leaves_split_mode n w :
  addingAuto (this w) = true ->
  exists w',
    step (S n) (Ui AddRidgeBtn PcuiClick) w = Ok tt w'
    /\ splitMode (this w') = false
    /\ addingAuto (this w') = false
    /\ addRidgeBtn (this w') = "Add Ridge"
    /\ ridgeToggleBtn (this w') = "Start Ridges"
    /\ store w' = store w
    /\ (forall l, lastData (this w) = Some l ->
                  forall row, row ∈ pointsContainer (this w') -> row_has_pick row = false)
    /\ map call_of (fired_since w w')
       = [ ("area.measure.disable.temporary", NoArg);
           ("area.measure.ridge.stop", NoArg) ].
Proof.
  intros Hauto. cbn [step]. rewrite dispatch_spec. cbn [Channel_eqb].
  rewrite addRidge_action_spec. cbv zeta. rewrite Hauto. cbn [negb].
  eexists. split; [reflexivity|].
  unfold after_ridge_stop.
  cbn [this logged log_fired on_this splitMode with_addRidgeBtn with_addingAuto
       with_splitMode].
  repeat split.
  - now apply splitMode_rerendered_off.
  - now rewrite addingAuto_rerendered.
  - now rewrite addRidgeBtn_rerendered.
  - now rewrite ridgeToggleBtn_rerendered.
  - now rewrite store_rerendered.
  - intros l Hld row. unfold rerendered.
    cbn [this logged log_fired on_this lastData with_ridgeToggleBtn with_addRidgeBtn
         with_addingAuto with_splitMode].
    rewrite Hld. cbn [this on_this update_panel pointsContainer].
    intros Hrow. apply elem_of_mapi_from in Hrow as (p & k & ->). reflexivity.
  - all_logs. reflexivity.
Qed.

(** X13.  A click on the ridge toggle while the cached snapshot still
    carries a split result cannot enter split mode: [splitMode] is set, the
    toggle is relabelled 'Stop Ridges' and [area.measure.ridge.start] is
    fired, but the re-rendering that ends the handler finds the split result
    and unsets [splitMode] again.  The panel is then out of split mode under
    a toggle reading 'Stop Ridges', with Pick buttons on every row. *)
Theorem ridge_toggle_on_stale_split_result n w l sa :
  lastData (this w) = Some l -> splitAreas (store w l) = Some sa ->
  splitMode (this w) = false ->
  exists w',
    step (S n) (Ui RidgeToggleBtn PcuiClick) w = Ok tt w'
    /\ splitMode (this w') = false
    /\ ridgeToggleBtn (this w') = "Stop Ridges"
    /\ (forall row, row ∈ pointsContainer (this w') -> row_has_pick row = true)
    /\ map call_of (fired_since w w')
       = [ ("area.measure.disable.temporary", NoArg);
           ("area.measure.ridge.start", NoArg) ].
Proof.
  intros Hld Hsa Hsm. cbn [step]. rewrite dispatch_spec. cbn [Channel_eqb].
  rewrite ridgeToggle_action_spec. cbv zeta. rewrite Hsm. cbn [negb].
  eexists. split; [reflexivity|]. split; [|split; [|split]].
  - unfold rerendered.
    cbn [this store logged log_fired on_this lastData with_ridgeToggleBtn with_splitMode].
    rewrite Hld. cbn [this on_this update_panel splitMode]. now rewrite Hsa.
  - now rewrite ridgeToggleBtn_rerendered.
  - intros row. unfold rerendered.
    cbn [this store logged log_fired on_this lastData with_ridgeToggleBtn with_splitMode].
    rewrite Hld. cbn [this on_this update_panel pointsContainer splitMode with_splitMode
                      with_ridgeToggleBtn].
    intros Hrow. apply elem_of_mapi_from in Hrow as (p & k & ->). reflexivity.
  - all_logs. reflexivity.
Qed.

Lemma ridge_toggle_once n w :
  (forall l, lastData (this w) = Some l -> splitAreas (store w l) = None) ->
  exists w',
    dispatch (S n) RidgeToggleBtn PcuiClick w = Ok tt w'
    /\ splitMode (this w') = negb (splitMode (this w))
    /\ ridgeToggleBtn (this w')
       = (if splitMode (this w) then "Start Ridges" else "Stop Ridges")
    /\ lastData (this w') = lastData (this w)
    /\ store w' = store w
    /\ fired w'
       = (fired w ++
          [ {| ev_name := "area.measure.disable.temporary"; ev_arg := NoArg;
               ev_at := this w |};
            {| ev_name := if splitMode (this w) then "area.measure.ridge.stop"
                          else "area.measure.ridge.start";
               ev_arg := NoArg;
               ev_at := with_ridgeToggleBtn
                          (if splitMode (this w) then "Start Ridges" else "Stop Ridges")
                          (with_splitMode (negb (splitMode (this w))) (this w)) |} ])%list.
Proof.
  intros Hnone. rewrite dispatch_spec. cbn [Channel_eqb].
  rewrite ridgeToggle_action_spec. cbv zeta.
  eexists. split; [reflexivity|].
  rewrite fired_rerendered, store_rerendered, ridgeToggleBtn_rerendered.
  unfold rerendered.
  cbn [this store fired logged log_fired on_this lastData splitMode ridgeToggleBtn
       with_ridgeToggleBtn with_splitMode].
  destruct (lastData (this w)) as [l|] eqn:Hld.
  - cbn [this on_this update_panel splitMode lastData]. rewrite (Hnone l eq_refl).
    destruct (splitMode (this w)); cbn [negb]; repeat split;
      now rewrite <- app_assoc.
  - cbn [this on_this logged log_fired splitMode lastData with_ridgeToggleBtn
         with_splitMode].
    destruct (splitMode (this w)); cbn [negb]; repeat split;
      try (now rewrite <- app_assoc); exact Hld.
Qed.

(** X14.  With no split result in the cached snapshot (or no snapshot yet),
    two clicks on the ridge toggle bring [splitMode] back to what it was and
    leave the toggle's text in step with it ('Stop Ridges' in split mode,
    'Start Ridges' outside); they fire start then stop, or stop then start,
    each preceded by [area.measure.disable.temporary]. *)
Theorem ridge_toggle_twice n w :
  (forall l, lastData (this w) = Some l -> splitAreas (store w l) = None) ->
  exists w',
    run (S n) [ Ui RidgeToggleBtn PcuiClick; Ui RidgeToggleBtn PcuiClick ] w = Ok tt w'
    /\ splitMode (this w') = splitMode (this w)
    /\ ridgeToggleBtn (this w')
       = (if splitMode (this w) then "Stop Ridges" else "Start Ridges")
    /\ lastData (this w') = lastData (this w)
    /\ map call_of (fired_since w w')
       = [ ("area.measure.disable.temporary", NoArg);
           (if splitMode (this w) then "area.measure.ridge.stop"
            else "area.measure.ridge.start", NoArg);
           ("area.measure.disable.temporary", NoArg);
           (if splitMode (this w) then "area.measure.ridge.start"
            else "area.measure.ridge.stop", NoArg) ].
Proof.
  intros Hnone.
  destruct (ridge_toggle_once n w Hnone) as (w1 & Hrun1 & Hsm1 & Hrt1 & Hld1 & Hst1 & Hf1).
  assert (Hnone1 : forall l, lastData (this w1) = Some l -> splitAreas (store w1 l) = None).
  { intros l. rewrite Hld1, Hst1. apply Hnone. }
  destruct (ridge_toggle_once n w1 Hnone1)
    as (w2 & Hrun2 & Hsm2 & Hrt2 & Hld2 & Hst2 & Hf2).
  exists w2. split.
  { cbn [run step]. erewrite bind_Ok by exact Hrun1. rewrite bind_skip_r. exact Hrun2. }
  rewrite Hsm2, Hsm1, negb_involutive, Hrt2, Hsm1, Hld2, Hld1.
  erewrite fired_since_app by (rewrite Hf2, Hf1, <- app_assoc; reflexivity).
  rewrite Hsm1. destruct (splitMode (this w)); repeat split.
Qed.


(** ** What no input does *)

Ltac crush_world w :=
  destruct w as [[v sm ld dp pc ec rc al pl sl rt ar aa] st fd];
  unfold step_facts, blank, displayed_as_visible, after_ridge_stop,
    after_split_cancel, rerendered, logged, log_fired, on_this, on_store;
  repeat (cbn [this store fired visible splitMode lastData display pointsContainer
               edgesContainer ridgesContainer areaLabel planarityLabel
               splitResultLabel ridgeToggleBtn addRidgeBtn addingAuto
               with_visible with_splitMode with_lastData with_display
               with_pointsContainer with_edgesContainer with_ridgesContainer
               with_areaLabel with_planarityLabel with_splitResultLabel
               with_ridgeToggleBtn with_addRidgeBtn with_addingAuto
               update_panel negb is_tool_write enters_split_mode];
          try match goal with
              | |- context [match ?x with Some _ => _ | None => _ end] =>
                  destruct x eqn:?
              | |- context [if ?b then _ else _] => destruct b eqn:?
              end);
  repeat split; intros; try discriminate; try congruence; try tauto.

Lemma step_facts_hold n i w :
  well_typed i = true ->
  exists w', step (S (S n)) i w = Ok tt w' /\ step_facts i w w'.
Proof.
  intros Hty. destruct i as [name arg|b ch| | | |l d]; cbn [step].
  - destruct (decide (name ∈ consumed_names)) as [Hin|Hout].
    + apply consumed_names_cases in Hin as [->|[->|[->|[->| ->]]]].
      * cbn in Hty. destruct arg as [| |l]; try discriminate.
        rewrite deliver_updated. eexists. split; [reflexivity|]. crush_world w.
      * rewrite deliver_show, show_spec. eexists. split; [reflexivity|]. crush_world w.
      * rewrite deliver_hide, hide_spec. eexists. split; [reflexivity|]. crush_world w.
      * rewrite deliver_split_cancel, on_split_cancel_spec.
        eexists. split; [reflexivity|]. crush_world w.
      * rewrite deliver_ridge_stop, on_ridge_stop_spec.
        eexists. split; [reflexivity|]. crush_world w.
    + rewrite deliver_unheard by exact Hout. exists w. split; [reflexivity|].
      crush_world w.
  - rewrite dispatch_spec. destruct b.
    + rewrite clear_action_spec. eexists. split; [reflexivity|]. crush_world w.
    + rewrite close_action_spec. eexists. split; [reflexivity|]. crush_world w.
    + rewrite exit_action_spec. eexists. split; [reflexivity|]. crush_world w.
    + destruct ch; cbn [Channel_eqb]; [|exists w; split; [reflexivity|]; crush_world w..].
      rewrite ridgeToggle_action_spec. eexists. split; [reflexivity|].
      cbv zeta. crush_world w.
    + destruct ch; cbn [Channel_eqb]; [|exists w; split; [reflexivity|]; crush_world w..].
      rewrite addRidge_action_spec. eexists. split; [reflexivity|].
      cbv zeta. crush_world w.
    + destruct ch; cbn [Channel_eqb]; [|exists w; split; [reflexivity|]; crush_world w..].
      rewrite undoRidge_action_spec. eexists. split; [reflexivity|]. crush_world w.
    + destruct ch; cbn [Channel_eqb]; [|exists w; split; [reflexivity|]; crush_world w..].
      rewrite clearRidges_action_spec. eexists. split; [reflexivity|]. crush_world w.
    + destruct (is_click ch); [|exists w; split; [reflexivity|]; crush_world w].
      rewrite doRedo_spec. eexists. split; [reflexivity|]. crush_world w.
    + destruct (is_click ch); [|exists w; split; [reflexivity|]; crush_world w].
      rewrite doPick_spec. eexists. split; [reflexivity|]. crush_world w.
  - rewrite toggle_spec. destruct (visible (this w)) eqn:Hv.
    + rewrite hide_spec. eexists. split; [reflexivity|]. crush_world w.
    + rewrite show_spec. eexists. split; [reflexivity|]. crush_world w.
  - rewrite show_spec. eexists. split; [reflexivity|]. crush_world w.
  - rewrite hide_spec. eexists. split; [reflexivity|]. crush_world w.
  - eexists. split; [reflexivity|]. crush_world w.
Qed.




(** X11.  The panel never writes to a snapshot: over any run of inputs, none
    of which is the tool itself updating a snapshot object, the store at the
    end is the store at the start. *)
Theorem panel_never_writes_store n inputs w :
  forallb well_typed inputs = true ->
  forallb (fun i => negb (is_tool_write i)) inputs = true ->
  exists w', run (S (S n)) inputs w = Ok tt w' /\ store w' = store w.
Proof.
  revert w. induction inputs as [|i inputs IH]; intros w Hty Hpanel.
  - exists w. split; reflexivity.
  - cbn [forallb] in Hty, Hpanel.
    apply andb_prop in Hty as [Hi Hrest]. apply andb_prop in Hpanel as [Hp Hps].
    destruct (step_facts_hold n i w Hi) as (w1 & Hstep & Hstore & _).
    destruct (IH w1 Hrest Hps) as (w' & Hrun & Hsame).
    exists w'. split.
    + cbn [run]. erewrite bind_Ok by exact Hstep. exact Hrun.
    + rewrite Hsame. apply Hstore. now destruct (is_tool_write i).
Qed.

(** X12.  Only a click on the ridge toggle or on Add Ridge can put the panel
    into split mode: after any other input, an event from the bus, any
    other button, a pointerdown, [toggle], [show] or [hide], the panel is in
    split mode only if it was before. *)
Theorem only_ridge_buttons_enter_split_mode n i w :
  well_typed i = true -> enters_split_mode i = false ->
  exists w',
    step (S (S n)) i w = Ok tt w'
    /\ (splitMode (this w') = true -> splitMode (this w) = true).
Proof.
  intros Hty Hother.
  destruct (step_facts_hold n i w Hty) as (w' & Hstep & _ & Hentry & _).
  exists w'. split; [exact Hstep|]. now apply Hentry.
Qed.


(** X19.  [bindBtn] attaches the Clear action to three listeners.  An input
    that reaches all three, the [pointerdown] listener and both [click]
    listeners, runs the action three times: the four events of a clear are
    fired three times over. *)
Theorem clear_bound_to_three_listeners n w :
  exists w',
    run (S n) [ Ui ClearBtn DomPointerDown; Ui ClearBtn DomClick;
                Ui ClearBtn PcuiClick ] w = Ok tt w'
    /\ map ev_name (fired_since w w')
       = [ "area.measure.disable.temporary"; "area.measure.ridge.stop";
           "area.measure.split.cancel"; "area.measure.clear";
           "area.measure.disable.temporary"; "area.measure.ridge.stop";
           "area.measure.split.cancel"; "area.measure.clear";
           "area.measure.disable.temporary"; "area.measure.ridge.stop";
           "area.measure.split.cancel"; "area.measure.clear" ]
    /\ this w' = with_ridgeToggleBtn "Start Ridges" (with_splitMode false (this w)).
Proof.
  cbn [run step].
  erewrite bind_Ok by (rewrite dispatch_spec; apply clear_action_spec).
  erewrite bind_Ok by (rewrite dispatch_spec; apply clear_action_spec).
  rewrite bind_skip_r, dispatch_spec, clear_action_spec.
  eexists. split; [reflexivity|]. all_logs. split; reflexivity.
Qed.

End AreaMeasurementPanel.

(** * The panel at work on the sample snapshot *)

Example sample_toFixed :
  toFixed_decimal 2.015625 3 = "2.016" /\ toFixed_decimal (-0.25) 3 = "-0.250"
  /\ toFixed_decimal 3 3 = "3.000" /\ toFixed_decimal 0.0625 3 = "0.063".
Proof. repeat split; vm_compute; reflexivity. Qed.

Example sample_threshold : (2 / 10)%float = planarity_threshold.
Proof. vm_compute. reflexivity. Qed.

Example sample_render :
  exists w',
    run toFixed_decimal 2
      [ Call_show; Bus "area.measure.updated" (Snapshot 0);
        Ui RidgeToggleBtn PcuiClick ] sample_world = Ok tt w'
    /\ map row_label (pointsContainer (this w'))
       = [ "P1: 0.000, 0.000, 0.000"; "P2: 2.000, 0.000, 0.000";
           "P3: 2.000, 0.000, 1.500"; "P4: 0.000, 0.250, 1.500" ]
    /\ map pick_background (pointsContainer (this w'))
       = [ Some "#00bcd4"; Some "#ffd400"; Some "#00bcd4"; None ]
    /\ map row_has_pick (pointsContainer (this w')) = [ true; true; true; true ]
    /\ edgesContainer (this w') = [ "L1: 2.000"; "L2: 1.500"; "L3: 2.016"; "L4: 1.500" ]
    /\ ridgesContainer (this w')
       = [ "R1: P1 ↔ P3"; "S1: 1.500 (indices P1→P2→P3)";
           "S2: 1.500 (indices P1→P3→P4)"; "Surfaces total: 3.000" ]
    /\ areaLabel (this w') = "Area: 3.000"
    /\ planarityLabel (this w') = "Non-planar: max 0.250, rms 0.125"
    /\ splitResultLabel (this w') = "Pick second point (selected P2)..."
    /\ ridgeToggleBtn (this w') = "Stop Ridges"
    /\ map call_of (fired w')
       = [ ("area.measure.disable.temporary", NoArg);
           ("area.measure.ridge.start", NoArg) ].
Proof. eexists. split; [vm_compute; reflexivity|]. repeat split. Qed.

(** * The claims of the specification on the sample worlds *)

Lemma pick_forwarded_witness :
  is_click DomClick = true
  /\ exists w',
       dispatch toFixed_decimal 1 (PickBtn 1) DomClick sample_split_world = Ok tt w'
       /\ map call_of (fired_since sample_split_world w')
          = [ ("area.measure.disable.temporary", NoArg);
              ("area.measure.split.select", Index 1) ].
Proof.
  split; [reflexivity|].
  destruct (pick_forwarded_iff_splitMode toFixed_decimal 0 1 DomClick
              sample_split_world eq_refl) as (w' & Hrun & Hlog & _).
  exists w'. split; [exact Hrun|exact Hlog].
Defined.

Lemma fires_only_produced_witness :
  forallb well_typed
    [ Call_show; Bus "area.measure.updated" (Snapshot 0);
      Ui RidgeToggleBtn PcuiClick; Ui (PickBtn 1) DomClick;
      Ui AddRidgeBtn PcuiClick; Ui AddRidgeBtn PcuiClick;
      Ui ClearBtn DomClick; Bus "area.measure.hide" NoArg ] = true
  /\ exists w',
       run toFixed_decimal 2
         [ Call_show; Bus "area.measure.updated" (Snapshot 0);
           Ui RidgeToggleBtn PcuiClick; Ui (PickBtn 1) DomClick;
           Ui AddRidgeBtn PcuiClick; Ui AddRidgeBtn PcuiClick;
           Ui ClearBtn DomClick; Bus "area.measure.hide" NoArg ] sample_world
       = Ok tt w'
       /\ forall e, e ∈ fired_since sample_world w' -> ev_name e ∈ produced_names.
Proof.
  split; [reflexivity|].
  apply (fires_only_produced_names toFixed_decimal 0). reflexivity.
Defined.

Lemma subscribes_witness :
  ("area.measure.clear" ∉ consumed_names)
  /\ deliver toFixed_decimal 1 "area.measure.clear" NoArg sample_world
     = Ok tt sample_world.
Proof.
  assert (Hout : "area.measure.clear" ∉ consumed_names)
    by (unfold consumed_names; compute_done).
  split; [exact Hout|].
  apply (subscribes_to_five_names toFixed_decimal (fire toFixed_decimal 0)).
  exact Hout.
Defined.

Lemma late_stop_witness :
  visible (this sample_split_world) = true
  /\ exists w',
       step toFixed_decimal 2 Call_hide sample_split_world = Ok tt w'
       /\ visible (this w') = false
       /\ step toFixed_decimal 1 (Bus "area.measure.ridge.stop" NoArg) w' = Ok tt w'
       /\ step toFixed_decimal 1 (Bus "area.measure.split.cancel" NoArg) w' = Ok tt w'.
Proof.
  split; [reflexivity|].
  destruct (late_stop_ignored_after_hide toFixed_decimal 0 Call_hide
              sample_split_world (or_introl eq_refl) (or_intror eq_refl))
    as (w' & Hrun & Hhidden & Hlate).
  exists w'. split; [exact Hrun|]. split; [exact Hhidden|]. apply (Hlate 0 NoArg).
Defined.

Lemma rerenders_from_lastData_witness :
  lastData (this sample_split_world) = Some 0
  /\ exists w1 w',
       step toFixed_decimal 1 (Ui RidgeToggleBtn PcuiClick) sample_split_world = Ok tt w'
       /\ update toFixed_decimal 0 w1 = Ok tt w'
       /\ store w1 = store sample_split_world
       /\ lastData (this w') = Some 0.
Proof.
  split; [reflexivity|].
  apply (proj1 (proj2 (caches_latest_snapshot_and_rerenders_from_it toFixed_decimal))).
  reflexivity.
Defined.

Lemma split_result_witness :
  splitAreas (store sample_split_world 1)
  = Some {| sa_a := 1.25; sa_b := 1.75; sa_total := 3 |}
  /\ exists w',
       update toFixed_decimal 1 sample_split_world = Ok tt w'
       /\ splitResultLabel (this w') = "Split areas: 1.250 + 1.750 = 3.000"
       /\ splitMode (this w') = false
       /\ ridgeToggleBtn (this w') = "Stop Ridges".
Proof.
  split; [reflexivity|].
  apply (update_split_result_leaves_split_mode toFixed_decimal 1 sample_split_world
           {| sa_a := 1.25; sa_b := 1.75; sa_total := 3 |}).
  reflexivity.
Defined.

Lemma planarity_label_witness :
  ((planarity_threshold <? 0.25)%float = true)
  /\ ((0.125 <=? planarity_threshold)%float = true)
  /\ (exists w', update toFixed_decimal 0 sample_world = Ok tt w'
                 /\ planarityLabel (this w') = "Non-planar: max 0.250, rms 0.125")
  /\ (exists w', update toFixed_decimal 1 sample_world = Ok tt w'
                 /\ planarityLabel (this w') = "Planarity OK (max 0.125)").
Proof.
  split; [reflexivity|]. split; [reflexivity|]. split.
  - destruct (planarity_label_by_threshold toFixed_decimal 0 sample_world)
      as (w' & Hrun & Hover & _).
    exists w'. split; [exact Hrun|].
    apply (Hover {| np_max := 0.25; np_rms := 0.125 |}); reflexivity.
  - destruct (planarity_label_by_threshold toFixed_decimal 1 sample_world)
      as (w' & Hrun & _ & Hunder & _).
    exists w'. split; [exact Hrun|].
    apply (Hunder {| np_max := 0.125; np_rms := 0.0625 |}); reflexivity.
Defined.

Lemma disable_temporary_first_witness :
  splitMode (this sample_split_world) = true
  /\ exists w',
       dispatch toFixed_decimal 1 (PickBtn 1) PcuiClick sample_split_world = Ok tt w'
       /\ head (map call_of (fired_since sample_split_world w'))
          = Some ("area.measure.disable.temporary", NoArg).
Proof.
  split; [reflexivity|].
  destruct (clicks_fire_disable_temporary_first toFixed_decimal 0 (PickBtn 1)
              PcuiClick sample_split_world) as (w' & Hrun & _ & Hfirst).
  exists w'. split; [exact Hrun|]. apply Hfirst; reflexivity.
Defined.

(** * The further properties on the sample worlds *)

Lemma update_rows_witness :
  points (store sample_world 0) !! 3 = Some {| v_x := 0; v_y := 0.25; v_z := 1.5 |}
  /\ exists w' row,
       update toFixed_decimal 0 sample_world = Ok tt w'
       /\ pointsContainer (this w') !! 3 = Some row
       /\ row_idx row = 3
       /\ row_label row = "P4: 0.000, 0.250, 1.500".
Proof.
  split; [reflexivity|].
  destruct (update_rows_follow_points toFixed_decimal 0 sample_world)
    as (w' & Hrun & _ & _ & Hrows & _).
  destruct (Hrows 3 {| v_x := 0; v_y := 0.25; v_z := 1.5 |} eq_refl)
    as (row & Hrow & Hidx & _ & Hlabel).
  exists w', row. repeat split; assumption.
Defined.

Lemma pick_colour_witness :
  (1 ∈ default [] (splitSelection (store sample_world 0)))
  /\ exists w',
       update toFixed_decimal 0 sample_world = Ok tt w'
       /\ forall row, pointsContainer (this w') !! 1 = Some row ->
                      pick_background row = Some "#ffd400".
Proof.
  assert (Hsel : 1 ∈ default [] (splitSelection (store sample_world 0)))
    by (cbn; apply list_elem_of_here).
  split; [exact Hsel|].
  destruct (pick_colour_by_selection_then_ridge toFixed_decimal 0 sample_world)
    as (w' & Hrun & Hcolour).
  exists w'. split; [exact Hrun|].
  intros row Hrow. now apply (Hcolour 1 row Hrow).
Defined.


Lemma split_prompt_witness :
  splitAreas (store sample_split_world 0) = None
  /\ exists w',
       update toFixed_decimal 0 sample_split_world = Ok tt w'
       /\ splitResultLabel (this w') = "Pick second point (selected P2)...".
Proof.
  split; [reflexivity|].
  destruct (split_prompt_follows_selection toFixed_decimal 0 sample_split_world eq_refl)
    as (w' & Hrun & _ & _ & Hone & _).
  exists w'. split; [exact Hrun|]. exact (Hone eq_refl 1 eq_refl).
Defined.

Lemma update_twice_witness :
  splitAreas (store sample_split_world 0) = None
  /\ exists w',
       update toFixed_decimal 0 sample_split_world = Ok tt w'
       /\ update toFixed_decimal 0 w' = Ok tt w'.
Proof.
  split; [reflexivity|].
  apply (update_twice_is_update_once toFixed_decimal 0 sample_split_world).
  left. reflexivity.
Defined.

Lemma stale_pick_buttons_witness :
  splitAreas (store sample_split_world 1)
  = Some {| sa_a := 1.25; sa_b := 1.75; sa_total := 3 |}
  /\ splitMode (this sample_split_world) = true
  /\ exists w1 w2,
       update toFixed_decimal 1 sample_split_world = Ok tt w1
       /\ splitMode (this w1) = false
       /\ (forall row, row ∈ pointsContainer (this w1) -> row_has_pick row = true)
       /\ update toFixed_decimal 1 w1 = Ok tt w2
       /\ (forall row, row ∈ pointsContainer (this w2) -> row_has_pick row = false).
Proof.
  split; [reflexivity|]. split; [reflexivity|].
  apply (split_result_leaves_stale_pick_buttons toFixed_decimal 1 sample_split_world
           {| sa_a := 1.25; sa_b := 1.75; sa_total := 3 |}); reflexivity.
Defined.

Lemma hide_resets_witness :
  visible (this sample_split_world) = true
  /\ exists w',
       step toFixed_decimal 1 Call_hide sample_split_world = Ok tt w'
       /\ map call_of (fired_since sample_split_world w')
          = [ ("area.measure.ridge.stop", NoArg);
              ("area.measure.split.cancel", NoArg) ]
       /\ splitMode (this w') = false.
Proof.
  split; [reflexivity|].
  destruct (hide_resets_and_notifies toFixed_decimal 0 sample_split_world)
    as (w' & Hrun & Hvisible & _).
  destruct (Hvisible eq_refl) as (Hthis & Hlog & _).
  exists w'. split; [exact Hrun|]. split; [exact Hlog|]. now rewrite Hthis.
Defined.



Lemma store_frame_witness :
  exists w',
    run toFixed_decimal 2
      [ Call_show; Bus "area.measure.updated" (Snapshot 1);
        Ui RidgeToggleBtn PcuiClick; Ui ClearBtn DomClick; Call_toggle ]
      sample_world = Ok tt w'
    /\ store w' = store sample_world.
Proof.
  apply (panel_never_writes_store toFixed_decimal 0); reflexivity.
Defined.

Lemma split_mode_entry_witness :
  enters_split_mode (Bus "area.measure.updated" (Snapshot 0)) = false
  /\ exists w',
       step toFixed_decimal 2 (Bus "area.measure.updated" (Snapshot 0)) sample_world
       = Ok tt w'
       /\ (splitMode (this w') = true -> splitMode (this sample_world) = true).
Proof.
  split; [reflexivity|].
  apply (only_ridge_buttons_enter_split_mode toFixed_decimal 0); reflexivity.
Defined.

Lemma stale_split_result_witness :
  lastData (this (on_this (with_lastData (Some 1)) sample_world)) = Some 1
  /\ exists w',
       step toFixed_decimal 1 (Ui RidgeToggleBtn PcuiClick)
         (on_this (with_lastData (Some 1)) sample_world) = Ok tt w'
       /\ splitMode (this w') = false
       /\ ridgeToggleBtn (this w') = "Stop Ridges".
Proof.
  split; [reflexivity|].
  destruct (ridge_toggle_on_stale_split_result toFixed_decimal 0
              (on_this (with_lastData (Some 1)) sample_world) 1
              {| sa_a := 1.25; sa_b := 1.75; sa_total := 3 |}
              eq_refl eq_refl eq_refl)
    as (w' & Hrun & Hsm & Htext & _).
  exists w'. repeat split; assumption.
Defined.

Lemma ridge_toggle_twice_witness :
  splitAreas (store sample_split_world 0) = None
  /\ exists w',
       run toFixed_decimal 1
         [ Ui RidgeToggleBtn PcuiClick; Ui RidgeToggleBtn PcuiClick ]
         sample_split_world = Ok tt w'
       /\ splitMode (this w') = true
       /\ ridgeToggleBtn (this w') = "Stop Ridges".
Proof.
  split; [reflexivity|].
  assert (Hnone : forall l, lastData (this sample_split_world) = Some l ->
                            splitAreas (store sample_split_world l) = None).
  { intros l Hl. injection Hl as <-. reflexivity. }
  destruct (ridge_toggle_twice toFixed_decimal 0 sample_split_world Hnone)
    as (w' & Hrun & Hsm & Htext & _).
  exists w'. repeat split; assumption.
Defined.

Lemma add_ridge_start_witness :
  addingAuto (this sample_world) = false
  /\ exists w',
       step toFixed_decimal 1 (Ui AddRidgeBtn PcuiClick) sample_world = Ok tt w'
       /\ splitMode (this w') = true
       /\ ridgeToggleBtn (this w') = "Start Ridges".
Proof.
  split; [reflexivity|].
  destruct (add_ridge_starts_without_rerender toFixed_decimal 0 sample_world eq_refl)
    as (w' & Hrun & _ & Hsm & Htext & _).
  exists w'. repeat split; assumption.
Defined.

Lemma add_ridge_stop_witness :
  addingAuto (this (on_this (with_addingAuto true) sample_split_world)) = true
  /\ exists w',
       step toFixed_decimal 1 (Ui AddRidgeBtn PcuiClick)
         (on_this (with_addingAuto true) sample_split_world) = Ok tt w'
       /\ splitMode (this w') = false
       /\ ridgeToggleBtn (this w') = "Start Ridges".
Proof.
  split; [reflexivity|].
  destruct (add_ridge_stop_leaves_split_mode toFixed_decimal 0
              (on_this (with_addingAuto true) sample_split_world) eq_refl)
    as (w' & Hrun & Hsm & _ & _ & Htext & _).
  exists w'. repeat split; assumption.
Defined.


